(** * Session and context manager of the Linear extension

    A shallow embedding of the module that sits between the editor
    commands and the Linear client: the module-level variables
    [_secretStorage], [_storage] and [_client], and the exported
    asynchronous operations that read and write them.

    The repository carries two revisions of the module.  They agree on
    every operation except [connect], [disconnect] and
    [getContextIssueWithDetails]; the shared operations are embedded once
    and the three that differ live in the modules [WithApiKey] (the
    revision whose [connect] offers OAuth or a manual API key) and
    [OAuthOnly] (the revision whose [connect] is OAuth only). *)

From stdpp Require Import base option strings gmap list.

Open Scope string_scope.
Open Scope list_scope.

(** ** Values exchanged with the collaborators *)

(** A thrown value.  The module only ever logs it, so its message is all
    that is kept. *)
Definition Error : Type := string.

(** What awaiting a promise (or evaluating a call) yields. *)
Inductive Outcome (A : Type) : Type :=
| Returns (a : A)
| Raises (e : Error).
Arguments Returns {A} a.
Arguments Raises {A} e.

Record AuthenticationSession := { accessToken : string }.

(** [new LinearClient({ accessToken })] and [new LinearClient({ apiKey })]:
    a client is the credential it was built from. *)
Inductive LinearClient :=
| ClientOfAccessToken (token : string)
| ClientOfApiKey (key : string).

Record User := { user_id : string }.
Record Team := { team_id : string }.
Record Comment := { comment_id : string }.
Record WorkflowState := { state_id : string }.
Record IssuePriorityValue := { priority_value : nat; priority_label : string }.
Record Issue := { issue_id : string }.
Record Connection (A : Type) := { nodes : list A }.
Arguments nodes {A} _.

Record CommentPayload := { comment_success : bool }.
Record IssuePayload := { success : bool; payload_issue : option string }.

Record IssueCreateInput := {
  title : string;
  teamId : string;
  description : option string;
  assigneeId : option string;
  stateId : option string;
  estimate : option Z;
  priority : option Z
}.

(** The requests the module sends through a client, and through the
    entities a client returned. *)
Inductive Query :=
| viewer
| assignedIssues (me : User)
| teams (me : User)
| issue (id : string)
| commentCreate (issueId body : string)
| workflowStates
| issueUpdate (id stateId : string)
| issuePriorityValues
| issueCreate (input : IssueCreateInput)
| assignee (i : Issue)
| creator (i : Issue)
| team (i : Issue)
| subscribers (i : Issue)
| comments (i : Issue) (first : nat).

Definition Resp (q : Query) : Type :=
  match q with
  | viewer => User
  | assignedIssues _ => Connection Issue
  | teams _ => Connection Team
  | issue _ => option Issue
  | commentCreate _ _ => CommentPayload
  | workflowStates => Connection WorkflowState
  | issueUpdate _ _ => IssuePayload
  | issuePriorityValues => list IssuePriorityValue
  | issueCreate _ => IssuePayload
  | assignee _ => option User
  | creator _ => option User
  | team _ => option Team
  | subscribers _ => option (Connection User)
  | comments _ _ => option (Connection Comment)
  end.

(** Operations on the two key/value stores of the editor. *)
Inductive StoreOp :=
| secret_get (key : string)
| secret_store (key value : string)
| secret_delete (key : string)
| memento_get (key : string)
| memento_update (key value : string).

(** Every call that leaves the module, in the order it is made. *)
Inductive Event :=
| EvGetSession (createIfNone : bool)
| EvShowQuickPick
| EvShowInputBox
| EvShowErrorMessage (msg : string)
| EvShowInformationMessage (msg : string)
| EvConsoleError (msg : string)
| EvConsoleLog (msg : string)
| EvStore (op : StoreOp)
| EvRemote (c : LinearClient) (q : Query).

(** The collaborators, as the module sees them during one operation: the
    authentication provider, the two prompts, whether a store operation
    rejects, and the answers of the remote API.  For a call that fails,
    [synchronous] tells whether the call expression itself throws (a
    getter that trips over a missing relation) instead of handing back a
    promise that rejects; the difference shows only where a promise is
    not awaited at once. *)
Record Env := {
  getSession : bool → Outcome (option AuthenticationSession);
  showQuickPick : Outcome (option string);
  showInputBox : Outcome (option string);
  fault : StoreOp → option Error;
  remote : LinearClient → ∀ q : Query, Outcome (Resp q);
  synchronous : LinearClient → Query → bool
}.

(** [context.secrets] and [context.workspaceState].  The module is their
    only writer, so a store is represented by its contents. *)
Record ExtensionContext := {
  secrets : gmap string string;
  workspaceState : gmap string string
}.

(** The module-level variables ([None] is [undefined], resp. [null]) and
    the log of outgoing calls. *)
Record World := {
  _secretStorage : option (gmap string string);
  _storage : option (gmap string string);
  _client : option LinearClient;
  trace : list Event
}.

Definition initial_world : World :=
  {| _secretStorage := None; _storage := None; _client := None; trace := [] |}.

Definition with_secretStorage (s : option (gmap string string)) (w : World) : World :=
  {| _secretStorage := s; _storage := _storage w;
     _client := _client w; trace := trace w |}.

Definition with_storage (s : option (gmap string string)) (w : World) : World :=
  {| _secretStorage := _secretStorage w; _storage := s;
     _client := _client w; trace := trace w |}.

Definition with_client (c : option LinearClient) (w : World) : World :=
  {| _secretStorage := _secretStorage w; _storage := _storage w;
     _client := c; trace := trace w |}.

Definition with_trace (t : list Event) (w : World) : World :=
  {| _secretStorage := _secretStorage w; _storage := _storage w;
     _client := _client w; trace := t |}.

(** ** The monad of the operations

    An operation reads the collaborators, updates the world and either
    returns or throws.  Updates made before a throw stay made. *)
Definition M (A : Type) : Type := Env → World → Outcome A * World.

Definition ret {A} (a : A) : M A := λ _ w, (Returns a, w).

Definition bind {A B} (m : M A) (k : A → M B) : M B :=
  λ env w,
    match m env w with
    | (Returns a, w') => k a env w'
    | (Raises e, w') => (Raises e, w')
    end.

Definition throw {A} (e : Error) : M A := λ _ w, (Raises e, w).

(** [try { m } catch (err) { h err }] *)
Definition try_catch {A} (m : M A) (h : Error → M A) : M A :=
  λ env w,
    match m env w with
    | (Returns a, w') => (Returns a, w')
    | (Raises e, w') => h e env w'
    end.

(** [x ← m; k] awaits [m] and continues with [k]; [m;; k] drops the
    result of [m]. *)
Declare Scope js_scope.
Delimit Scope js_scope with js.
Notation "x ← y ; z" := (bind y (λ x, z))
  (at level 20, y at level 100, z at level 200, only parsing) : js_scope.
Notation "' x ← y ; z" := (bind y (λ x : _, z))
  (at level 20, x pattern, y at level 100, z at level 200,
   only parsing) : js_scope.
Notation "x ;; z" := (bind x (λ _, z))
  (at level 100, z at level 200, only parsing, right associativity) : js_scope.
Open Scope js_scope.

Definition emit (ev : Event) : M unit :=
  λ _ w, (Returns tt, with_trace (trace w ++ [ev]) w).

Definition of_outcome {A} (o : Outcome A) : M A := λ _ w, (o, w).

Definition get_client : M (option LinearClient) := λ _ w, (Returns (_client w), w).

Definition set_client (c : option LinearClient) : M unit :=
  λ _ w, (Returns tt, with_client c w).

Definition set_secretStorage (store : gmap string string) : M unit :=
  λ _ w, (Returns tt, with_secretStorage (Some store) w).

Definition set_storage (store : gmap string string) : M unit :=
  λ _ w, (Returns tt, with_storage (Some store) w).

(** *** Collaborator calls *)

(** [new LinearClient(options)].  The constructor belongs to the SDK: it
    throws when the options carry neither a non-empty access token nor a
    non-empty API key, and otherwise returns the client of that
    credential. *)
Inductive LinearClientOptions :=
| OptionsAccessToken (token : string)
| OptionsApiKey (key : string).

Definition new_LinearClient (options : LinearClientOptions) : M LinearClient :=
  match options with
  | OptionsAccessToken token =>
      if decide (token = "") then
        throw "No accessToken or apiKey provided to the LinearClient"
      else ret (ClientOfAccessToken token)
  | OptionsApiKey key =>
      if decide (key = "") then
        throw "No accessToken or apiKey provided to the LinearClient"
      else ret (ClientOfApiKey key)
  end.

Definition console_error (msg : string) : M unit := emit (EvConsoleError msg).
Definition console_log (msg : string) : M unit := emit (EvConsoleLog msg).
Definition showErrorMessage (msg : string) : M unit := emit (EvShowErrorMessage msg).
Definition showInformationMessage (msg : string) : M unit :=
  emit (EvShowInformationMessage msg).

(** [vscode.authentication.getSession("linear", scopes, { createIfNone })] *)
Definition authentication_getSession (createIfNone : bool)
  : M (option AuthenticationSession) :=
  emit (EvGetSession createIfNone);;
  (λ env, of_outcome (getSession env createIfNone) env).

Definition window_showQuickPick : M (option string) :=
  emit EvShowQuickPick;; (λ env, of_outcome (showQuickPick env) env).

Definition window_showInputBox : M (option string) :=
  emit EvShowInputBox;; (λ env, of_outcome (showInputBox env) env).

(** A request through client [c]. *)
Definition request (c : LinearClient) (q : Query) : M (Resp q) :=
  emit (EvRemote c q);; (λ env, of_outcome (remote env c q) env).

(** Calling a method of a store variable that is still [undefined] throws. *)
Definition TypeError : Error := "TypeError: Cannot read properties of undefined".

(** A store operation.  On a variable that is still unbound the method
    call throws before anything reaches a store; on a bound one the call
    is made, and it rejects when the collaborator says so and otherwise
    acts on the contents. *)
Definition secretStorage_op {A} (op : StoreOp)
    (act : gmap string string → A * gmap string string) : M A :=
  store ← (λ _ w, (Returns (_secretStorage w), w));
  match store with
  | None => throw TypeError
  | Some m =>
      emit (EvStore op);;
      (λ env w,
         match fault env op with
         | Some e => (Raises e, w)
         | None => let '(a, m') := act m in (Returns a, with_secretStorage (Some m') w)
         end)
  end.

Definition storage_op {A} (op : StoreOp)
    (act : gmap string string → A * gmap string string) : M A :=
  store ← (λ _ w, (Returns (_storage w), w));
  match store with
  | None => throw TypeError
  | Some m =>
      emit (EvStore op);;
      (λ env w,
         match fault env op with
         | Some e => (Raises e, w)
         | None => let '(a, m') := act m in (Returns a, with_storage (Some m') w)
         end)
  end.

Definition secretStorage_get (key : string) : M (option string) :=
  secretStorage_op (secret_get key) (λ m, (m !! key, m)).

Definition secretStorage_store (key value : string) : M unit :=
  secretStorage_op (secret_store key value) (λ m, (tt, <[key := value]> m)).

Definition secretStorage_delete (key : string) : M unit :=
  secretStorage_op (secret_delete key) (λ m, (tt, delete key m)).

Definition storage_get (key : string) : M (option string) :=
  storage_op (memento_get key) (λ m, (m !! key, m)).

Definition storage_update (key value : string) : M unit :=
  storage_op (memento_update key value) (λ m, (tt, <[key := value]> m)).

(** JavaScript truthiness of a [string | undefined]: the string itself
    when it is defined and not empty. *)
Definition truthy (v : option string) : option string :=
  match v with
  | Some s => if decide (s = "") then None else Some s
  | None => None
  end.

(** ** Operations shared by both revisions

    An early [return] inside a [try] block is the value of the block; a
    [return] placed after the [try ... catch] is written at the end of the
    path that reaches it. *)

(** [init] is the same in both revisions (the second only adds a
    [?.toString()] to the key it read, which changes nothing on a string).
    The [return false] after the [try] is reached from the end of the
    [try] block and from the [catch] block; here each path returns it. *)
Definition init (context : ExtensionContext) : M bool :=
  set_secretStorage (secrets context);;
  set_storage (workspaceState context);;
  try_catch
    (session ← authentication_getSession false;
     match session with
     | Some s =>
         client ← new_LinearClient (OptionsAccessToken (accessToken s));
         set_client (Some client);;
         ret true
     | None =>
         apiKey ← secretStorage_get "apiKey";
         match truthy apiKey with
         | Some k =>
             client ← new_LinearClient (OptionsApiKey k);
             set_client (Some client);;
             ret true
         | None => ret false
         end
     end)
    (λ err, console_error "Error initializing Linear client";; ret false).

Definition getMyIssues : M (option (list Issue)) :=
  client ← get_client;
  match client with
  | Some c =>
      try_catch
        (me ← request c viewer;
         myIssues ← request c (assignedIssues me);
         ret (Some (nodes myIssues)))
        (λ err, console_error "Error getting my issues";; ret None)
  | None => console_error "No initialized Linear client found";; ret None
  end.

Definition getMyTeams : M (option (list Team)) :=
  client ← get_client;
  match client with
  | Some c =>
      try_catch
        (me ← request c viewer;
         myTeams ← request c (teams me);
         ret (Some (nodes myTeams)))
        (λ err, console_error "Error getting my teams";; ret None)
  | None => console_error "No initialized Linear client found";; ret None
  end.

Definition getIssueByIdentifier (identifier : string) : M (option Issue) :=
  client ← get_client;
  match client with
  | Some c =>
      try_catch
        (i ← request c (issue identifier);
         ret i)
        (λ err, console_error "Error getting issue by identifier";; ret None)
  | None => console_error "No initialized Linear client found";; ret None
  end.

Definition setContextIssueId (issueId : option string) : M bool :=
  match truthy issueId with
  | None => ret false
  | Some id =>
      try_catch
        (storage_update "linearContextIssueId" id;;
         ret true)
        (λ err, console_error "Error setting context issue";; ret false)
  end.

Definition addContextIssueComment (comment : string) : M bool :=
  client ← get_client;
  match client with
  | None => ret false
  | Some c =>
      match truthy (Some comment) with
      | None => ret false
      | Some body =>
          try_catch
            (issueId ← storage_get "linearContextIssueId";
             match truthy issueId with
             | None => ret false
             | Some id =>
                 commentPayload ← request c (commentCreate id body);
                 if negb (comment_success commentPayload) then ret false
                 else ret true
             end)
            (λ err, console_error "Error commenting context issue";; ret false)
      end
  end.

Definition getWorkflowStates : M (option (list WorkflowState)) :=
  client ← get_client;
  match client with
  | Some c =>
      try_catch
        (states ← request c workflowStates;
         ret (Some (nodes states)))
        (λ err, console_error "Error getting workflow states";; ret None)
  | None => console_error "No initialized Linear client found";; ret None
  end.

Definition setContextIssueStatus (status : string) : M bool :=
  client ← get_client;
  match client with
  | None => ret false
  | Some c =>
      match truthy (Some status) with
      | None => ret false
      | Some target =>
          try_catch
            (issueId ← storage_get "linearContextIssueId";
             match truthy issueId with
             | None => ret false
             | Some id =>
                 statusPayload ← request c (issueUpdate id target);
                 if negb (success statusPayload) then ret false
                 else ret true
             end)
            (λ err, console_error "Error setting context issue status";; ret false)
      end
  end.

Definition getAvailablePriorities : M (option (list IssuePriorityValue)) :=
  client ← get_client;
  match client with
  | Some c =>
      try_catch
        (availablePriorities ← request c issuePriorityValues;
         ret (Some availablePriorities))
        (λ err, console_error "Error getting priorities";; ret None)
  | None => console_error "No initialized Linear client found";; ret None
  end.

(** The argument of [getTeamMembers] is a team object the caller got
    from an earlier fetch; [team.members()] is a method of that object,
    not of [_client]. *)
Record TeamObject := {
  team_entity : Team;
  members : M (Connection User)
}.

Definition getTeamMembers (team : TeamObject) : M (option (list User)) :=
  client ← get_client;
  match client with
  | Some c =>
      try_catch
        (teamMembers ← members team;
         ret (Some (nodes teamMembers)))
        (λ err, console_error "Error getting team members";; ret None)
  | None => console_error "No initialized Linear client found";; ret None
  end.

Definition createIssue (input : IssueCreateInput) : M (option IssuePayload) :=
  client ← get_client;
  match client with
  | None => ret None
  | Some c =>
      try_catch
        (issuePayload ← request c (issueCreate input);
         if negb (success issuePayload) then ret None
         else ret (Some issuePayload))
        (λ err, console_error "Error creating issue";; ret None)
  end.

Definition getContextIssue : M (option Issue) :=
  client ← get_client;
  match client with
  | None => ret None
  | Some c =>
      try_catch
        (issueId ← storage_get "linearContextIssueId";
         match truthy issueId with
         | None => ret None
         | Some id =>
             i ← request c (issue id);
             ret i
         end)
        (λ err, console_error "Error retrieving context issue";; ret None)
  end.

(** *** The detail bundle *)

Record IssueDetails := {
  details_issue : Issue;
  details_assignee : option User;
  details_creator : option User;
  details_team : option Team;
  details_subscribers : option (list User);
  details_comments : option (list Comment)
}.

(** Evaluating a call expression whose promise is not awaited at once:
    the call is made now.  It either throws on the spot, and then the
    evaluation of the surrounding expression stops there, or it hands
    back a promise whose outcome is looked at when it is awaited. *)
Definition start (c : LinearClient) (q : Query) : M (Outcome (Resp q)) :=
  emit (EvRemote c q);;
  (λ env w,
     match remote env c q with
     | Returns a => (Returns (Returns a), w)
     | Raises e =>
         if synchronous env c q then (Raises e, w)
         else (Returns (Raises e), w)
     end).

(** [await Promise.all([a, b, c, d, e])]: the five elements of the array
    are evaluated in order, which makes the five calls; the join throws
    as soon as one of the promises rejects and otherwise returns the five
    values. *)
Definition Promise_all5 {A B C D E}
    (ma : M (Outcome A)) (mb : M (Outcome B)) (mc : M (Outcome C))
    (md : M (Outcome D)) (me : M (Outcome E))
  : M (A * B * C * D * E) :=
  pa ← ma;
  pb ← mb;
  pc ← mc;
  pd ← md;
  pe ← me;
  a ← of_outcome pa;
  b ← of_outcome pb;
  c ← of_outcome pc;
  d ← of_outcome pd;
  e ← of_outcome pe;
  ret (a, b, c, d, e).

(** ** The revision with OAuth and manual API key *)
Module WithApiKey.

Definition connect : M bool :=
  try_catch
    (authMethod ← window_showQuickPick;
     match authMethod with
     | None => ret false
     | Some label =>
         if decide (label = "Sign in with OAuth") then
           session ← authentication_getSession true;
           match session with
           | None =>
               showErrorMessage "Failed to authenticate with Linear";;
               ret false
           | Some s =>
               client ← new_LinearClient (OptionsAccessToken (accessToken s));
               set_client (Some client);;
               ret true
           end
         else
           apiKey ← window_showInputBox;
           match truthy apiKey with
           | None => ret false
           | Some key =>
               try_catch
                 (testClient ← new_LinearClient (OptionsApiKey key);
                  request testClient viewer;;
                  secretStorage_store "apiKey" key;;
                  set_client (Some testClient);;
                  ret true)
                 (λ error,
                    showErrorMessage "Invalid API key. Please check and try again.";;
                    ret false)
           end
     end)
    (λ err, console_error "Error authenticating with Linear";; ret false).

Definition disconnect : M bool :=
  try_catch
    (secretStorage_delete "apiKey";;
     try_catch
       (session ← authentication_getSession false;
        match session with
        | Some _ =>
            showInformationMessage
              "To completely remove OAuth authorization, go to File > Preferences > Settings > Accounts > Linear to manage your sessions."
        | None => ret tt
        end)
       (λ error, console_log "Error checking authentication session:");;
     set_client None;;
     ret true)
    (λ err, console_error "Error signing out from Linear";; ret false).

Definition getContextIssueWithDetails : M (option IssueDetails) :=
  client ← get_client;
  match client with
  | None => ret None
  | Some c =>
      try_catch
        (issueId ← storage_get "linearContextIssueId";
         match truthy issueId with
         | None => ret None
         | Some id =>
             fetched ← request c (issue id);
             match fetched with
             | None => ret None
             | Some i =>
                 '(a, cr, t, subscribersConnection, commentsConnection) ←
                   Promise_all5 (start c (assignee i)) (start c (creator i))
                                (start c (team i)) (start c (subscribers i))
                                (start c (comments i 100));
                 ret (Some {| details_issue := i;
                              details_assignee := a;
                              details_creator := cr;
                              details_team := t;
                              details_subscribers :=
                                Some (default [] (nodes <$> subscribersConnection));
                              details_comments :=
                                Some (default [] (nodes <$> commentsConnection)) |})
             end
         end)
        (λ err,
           console_error "Error retrieving context issue with details";;
           ret None)
  end.

End WithApiKey.

(** ** The revision with OAuth only *)
Module OAuthOnly.

Definition connect : M bool :=
  try_catch
    (session ← authentication_getSession true;
     match session with
     | None =>
         showErrorMessage "Failed to authenticate with Linear";;
         ret false
     | Some s =>
         client ← new_LinearClient (OptionsAccessToken (accessToken s));
         set_client (Some client);;
         ret true
     end)
    (λ err, console_error "Error authenticating with Linear";; ret false).

Definition disconnect : M bool :=
  try_catch
    (secretStorage_delete "apiKey";;
     set_client None;;
     ret true)
    (λ err, console_error "Error signing out from Linear";; ret false).

Definition getContextIssueWithDetails : M (option IssueDetails) :=
  client ← get_client;
  match client with
  | None => ret None
  | Some c =>
      try_catch
        (issueId ← storage_get "linearContextIssueId";
         match truthy issueId with
         | None => ret None
         | Some id =>
             fetched ← request c (issue id);
             match fetched with
             | None => ret None
             | Some i =>
                 '(a, cr, t, subscribersConnection, commentsConnection) ←
                   Promise_all5 (start c (assignee i)) (start c (creator i))
                                (start c (team i)) (start c (subscribers i))
                                (start c (comments i 100));
                 ret (Some {| details_issue := i;
                              details_assignee := a;
                              details_creator := cr;
                              details_team := t;
                              details_subscribers := nodes <$> subscribersConnection;
                              details_comments := nodes <$> commentsConnection |})
             end
         end)
        (λ err,
           console_error "Error retrieving context issue with details";;
           ret None)
  end.

End OAuthOnly.

(** ** Command handlers of the extension

    The bodies of the handlers registered for [linear.connect],
    [linear.disconnect] and [linear.addContextIssueComment].  A handler
    calls the operation it imported from the module, whichever revision
    that is, so the operation is an argument here. *)

Definition connectCommand (connect : M bool) : M unit :=
  try_catch
    (success ← connect;
     if success then
       showInformationMessage "Successfully connected to Linear!"
     else
       showErrorMessage "Failed to connect to Linear. Please try again.")
    (λ error,
       showErrorMessage ("Failed to authenticate with Linear: " +:+ error)).

Definition disconnectCommand (disconnect : M bool) : M unit :=
  success ← disconnect;
  if success then
    showInformationMessage
      "Disconnected from Linear. Run 'Linear: Connect' to reconnect."
  else
    showErrorMessage "Failed to disconnect from Linear. Please try again.".

Definition addContextIssueCommentCommand : M unit :=
  input ← window_showInputBox;
  match truthy input with
  | Some comment =>
      added ← addContextIssueComment comment;
      if added then showInformationMessage "Context issue comment added"
      else showErrorMessage "Error commenting the context issue"
  | None => showErrorMessage "Comment cannot be empty"
  end.

(** ** Observations on a run *)

(** The requests that reached a remote client, oldest first. *)
Definition remote_calls (t : list Event) : list (LinearClient * Query) :=
  omap (λ ev, match ev with EvRemote c q => Some (c, q) | _ => None end) t.

(** The value persisted under a key of the workspace store. *)
Definition persisted (key : string) (w : World) : option string :=
  match _storage w with Some m => m !! key | None => None end.

(** The API key held by the secret store. *)
Definition stored_secret (key : string) (w : World) : option string :=
  match _secretStorage w with Some m => m !! key | None => None end.

(** The ids for which an issue fetch was attempted, oldest first. *)
Definition fetched_ids (t : list Event) : list string :=
  omap (λ ev, match ev with EvRemote _ (issue id) => Some id | _ => None end) t.

(** The session lifecycle as the callers observe it: a session exists
    exactly when a client handle is held. *)
Inductive SessionState := Unauthenticated | Authenticated.

Definition session_state (w : World) : SessionState :=
  match _client w with
  | Some _ => Authenticated
  | None => Unauthenticated
  end.

(** An operation refuses to act: it returns [absent], sends nothing to a
    remote client and leaves the module without a client handle. *)
Definition refuses {A} (op : M A) (absent : A) (env : Env) (w : World) : Prop :=
  ∃ w', op env w = (Returns absent, w') ∧
        remote_calls (trace w') = remote_calls (trace w) ∧
        _client w' = None.

(** One of the five fetches that depend on issue [i] rejects. *)
Definition sub_fetch_fails (env : Env) (c : LinearClient) (i : Issue) : Prop :=
  (∃ e, remote env c (assignee i) = Raises e)
  ∨ (∃ e, remote env c (creator i) = Raises e)
  ∨ (∃ e, remote env c (team i) = Raises e)
  ∨ (∃ e, remote env c (subscribers i) = Raises e)
  ∨ (∃ e, remote env c (comments i 100) = Raises e).

(** What both revisions of [disconnect] do, given how the deletion of the
    persisted API key ends. *)
Definition disconnect_behaviour (disconnect : M bool) (env : Env) (w : World) : Prop :=
  ∃ w',
    match (secretStorage_delete "apiKey" env w).1 with
    | Returns _ =>
        disconnect env w = (Returns true, w')
        ∧ _client w' = None
        ∧ stored_secret "apiKey" w' = None
    | Raises _ =>
        disconnect env w = (Returns false, w')
        ∧ _client w' = _client w
    end.

(** The ways the OAuth path of [connect] ends without a client: the
    provider raises, it yields no session, or it yields a session whose
    access token the constructor refuses. *)
Inductive oauth_fails (env : Env) : Prop :=
| oauth_provider_raises (e : Error) :
    getSession env true = Raises e → oauth_fails env
| oauth_no_session :
    getSession env true = Returns None → oauth_fails env
| oauth_empty_token (s : AuthenticationSession) :
    getSession env true = Returns (Some s) → accessToken s = "" →
    oauth_fails env.

(** The ways the manual path of [connect] ends without a client: the
    input box raises, it is dismissed or left empty, the validation call
    raises, or the secret store refuses the key. *)
Inductive manual_fails (env : Env) (w : World) : Prop :=
| manual_prompt_raises (e : Error) :
    showInputBox env = Raises e → manual_fails env w
| manual_dismissed (input : option string) :
    showInputBox env = Returns input → truthy input = None →
    manual_fails env w
| manual_validation_raises (key : string) (e : Error) :
    showInputBox env = Returns (Some key) → key ≠ "" →
    remote env (ClientOfApiKey key) viewer = Raises e →
    manual_fails env w
| manual_store_raises (key : string) (e : Error) :
    showInputBox env = Returns (Some key) → key ≠ "" →
    (secretStorage_store "apiKey" key env w).1 = Raises e →
    manual_fails env w.

(** Cancellation and failure of the first revision of [connect]: the
    pick list raises or is dismissed, or the path the user picked
    fails. *)
Inductive choice_fails (env : Env) (w : World) : Prop :=
| pick_raises (e : Error) :
    showQuickPick env = Raises e → choice_fails env w
| pick_dismissed :
    showQuickPick env = Returns None → choice_fails env w
| pick_oauth :
    showQuickPick env = Returns (Some "Sign in with OAuth") →
    oauth_fails env → choice_fails env w
| pick_manual (label : string) :
    showQuickPick env = Returns (Some label) →
    label ≠ "Sign in with OAuth" →
    manual_fails env w → choice_fails env w.

(** [connect] always returns a boolean; it returns [false] exactly on the
    runs that end in cancellation or failure, and then the client handle
    is the one from before the call. *)
Definition connect_outcome (connect : M bool) (fails : Prop)
    (env : Env) (w : World) : Prop :=
  ∃ b w',
    connect env w = (Returns b, w')
    ∧ (fails → b = false)
    ∧ (b = false →
       fails ∧ _client w' = _client w ∧ session_state w' = session_state w)
    ∧ (b = true → session_state w' = Authenticated).

(** The module variables of a world, without the call log. *)
Definition variables (w : World)
  : option (gmap string string) * option (gmap string string) * option LinearClient :=
  (_secretStorage w, _storage w, _client w).

(** The events a run added to the log. *)
Definition new_events (w w' : World) : list Event :=
  drop (length (trace w)) (trace w').

(** An event by which [init] would prompt the user, reach the remote or
    write to a store. *)
Definition intrusive (ev : Event) : bool :=
  match ev with
  | EvGetSession createIfNone => createIfNone
  | EvShowQuickPick | EvShowInputBox => true
  | EvShowErrorMessage _ | EvShowInformationMessage _ => true
  | EvConsoleError _ | EvConsoleLog _ => false
  | EvStore (secret_get _) | EvStore (memento_get _) => false
  | EvStore _ => true
  | EvRemote _ _ => true
  end.

(** The call fails by throwing on the spot. *)
Definition throws_synchronously (env : Env) (c : LinearClient) (q : Query) : bool :=
  match remote env c q with
  | Raises _ => synchronous env c q
  | Returns _ => false
  end.

(** The elements of an array literal that get evaluated: all of them up
    to and including the first whose call throws on the spot. *)
Fixpoint evaluated (env : Env) (c : LinearClient) (elements : list Query)
  : list Query :=
  match elements with
  | [] => []
  | q :: rest =>
      q :: (if throws_synchronously env c q then [] else evaluated env c rest)
  end.

(** The bundle of the first revision from the bundle of the second: an
    absent list of subscribers or comments becomes the empty list. *)
Definition with_empty_lists (d : IssueDetails) : IssueDetails :=
  {| details_issue := details_issue d;
     details_assignee := details_assignee d;
     details_creator := details_creator d;
     details_team := details_team d;
     details_subscribers := Some (default [] (details_subscribers d));
     details_comments := Some (default [] (details_comments d)) |}.

(** *** Sample collaborators and worlds *)

(** Nobody answers: no OAuth session, prompts dismissed, remote down. *)
Definition offline_env : Env :=
  {| getSession := λ _, Returns None;
     showQuickPick := Returns None;
     showInputBox := Returns None;
     fault := λ _, None;
     remote := λ _ q, Raises "offline";
     synchronous := λ _ _, false |}.

(** A remote that knows every issue, reports no assignee and two
    comments, and accepts every mutation. *)
Definition sample_remote (c : LinearClient) (q : Query) : Outcome (Resp q) :=
  match q return Outcome (Resp q) with
  | viewer => Returns {| user_id := "me" |}
  | assignedIssues _ => Returns {| nodes := [] |}
  | teams _ => Returns {| nodes := [] |}
  | issue id => Returns (Some {| issue_id := id |})
  | commentCreate _ _ => Returns {| comment_success := true |}
  | workflowStates => Returns {| nodes := [] |}
  | issueUpdate _ _ => Returns {| success := true; payload_issue := None |}
  | issuePriorityValues => Returns []
  | issueCreate _ => Returns {| success := true; payload_issue := Some "ISS-2" |}
  | assignee _ => Returns None
  | creator _ => Returns (Some {| user_id := "author" |})
  | team _ => Returns (Some {| team_id := "team-1" |})
  | subscribers _ => Returns (Some {| nodes := [] |})
  | comments _ _ =>
      Returns (Some {| nodes := [ {| comment_id := "c1" |}; {| comment_id := "c2" |} ] |})
  end.

Definition online_env : Env :=
  {| getSession := λ _, Returns (Some {| accessToken := "token" |});
     showQuickPick := Returns (Some "Sign in with OAuth");
     showInputBox := Returns None;
     fault := λ _, None;
     remote := sample_remote;
     synchronous := λ _ _, false |}.

(** No OAuth session; the user picks the manual entry and types [text]
    into the input box; the remote answers. *)
Definition typing_env (text : string) : Env :=
  {| getSession := λ _, Returns None;
     showQuickPick := Returns (Some "Use API Key");
     showInputBox := Returns (Some text);
     fault := λ _, None;
     remote := sample_remote;
     synchronous := λ _ _, false |}.

(** The provider holds an OAuth session whose access token is empty. *)
Definition empty_token_env : Env :=
  {| getSession := λ _, Returns (Some {| accessToken := "" |});
     showQuickPick := Returns (Some "Sign in with OAuth");
     showInputBox := Returns None;
     fault := λ _, None;
     remote := sample_remote;
     synchronous := λ _ _, false |}.

(** The remote answers, but the issue it returns carries no team: the
    [team] getter throws on the spot, and the comments fetch rejects. *)
Definition teamless_env : Env :=
  {| getSession := λ _, Returns (Some {| accessToken := "token" |});
     showQuickPick := Returns (Some "Sign in with OAuth");
     showInputBox := Returns None;
     fault := λ _, None;
     remote := λ c q,
       match q return Outcome (Resp q) with
       | team _ => Raises "TypeError: Cannot read properties of undefined"
       | comments _ _ => Raises "network error"
       | other => sample_remote c other
       end;
     synchronous := λ _ q, match q with team _ => true | _ => false end |}.

(** The remote answers, but every assignee fetch rejects. *)
Definition no_assignee_env : Env :=
  {| getSession := λ _, Returns (Some {| accessToken := "token" |});
     showQuickPick := Returns (Some "Sign in with OAuth");
     showInputBox := Returns None;
     fault := λ _, None;
     remote := λ c q,
       match q return Outcome (Resp q) with
       | assignee _ => Raises "network error"
       | other => sample_remote c other
       end;
     synchronous := λ _ _, false |}.

(** The secret store rejects the deletion of the API key. *)
Definition locked_secrets_env : Env :=
  {| getSession := λ _, Returns None;
     showQuickPick := Returns None;
     showInputBox := Returns None;
     fault := λ op, match op with
                    | secret_delete _ => Some "secret store unavailable"
                    | _ => None
                    end;
     remote := λ _ q, Raises "offline";
     synchronous := λ _ _, false |}.

(** After activation without credentials: both stores bound and empty. *)
Definition disconnected_world : World :=
  {| _secretStorage := Some ∅; _storage := Some ∅; _client := None; trace := [] |}.

Definition sample_client : LinearClient := ClientOfAccessToken "token".

(** A connected module whose context issue is ABC-42 and whose API key
    is persisted. *)
Definition connected_world : World :=
  {| _secretStorage := Some {[ "apiKey" := "lin_api_1" ]};
     _storage := Some {[ "linearContextIssueId" := "ABC-42" ]};
     _client := Some sample_client;
     trace := [] |}.

(** What the editor hands to [init]: an API key left by an earlier
    version and no context issue. *)
Definition sample_context : ExtensionContext :=
  {| secrets := {[ "apiKey" := "lin_api_1" ]}; workspaceState := ∅ |}.

Definition sample_input : IssueCreateInput :=
  {| title := "Fix bug"; teamId := "team-1"; description := None;
     assigneeId := None; stateId := None; estimate := None; priority := None |}.

(** * Properties *)

Lemma truthy_Some v s : truthy v = Some s ↔ v = Some s ∧ s ≠ "".
Proof.
  unfold truthy. destruct v as [x|]; [|split; [|intros []]; discriminate].
  destruct (decide (x = "")); split; try discriminate; try congruence.
  - intros [[= ->] ?]. contradiction.
  - intros [= <-]. done.
  - intros [[= ->] _]. done.
Qed.

Lemma remote_calls_app t1 t2 :
  remote_calls (t1 ++ t2) = remote_calls t1 ++ remote_calls t2.
Proof. unfold remote_calls. apply omap_app. Qed.

#[global] Arguments truthy : simpl never.
#[global] Arguments Promise_all5 : simpl never.
#[global] Arguments start : simpl never.

Ltac unfold_js :=
  cbv beta iota zeta delta
    [bind try_catch ret throw new_LinearClient emit of_outcome get_client
     set_client
     set_secretStorage set_storage
     console_error console_log showErrorMessage showInformationMessage
     authentication_getSession window_showQuickPick window_showInputBox
     request secretStorage_get secretStorage_store secretStorage_delete
     storage_get storage_update secretStorage_op storage_op start
     Promise_all5] in *.

Ltac js_cases :=
  repeat (simpl in *; first [ progress simplify_eq | case_match ]);
  simpl in *.

(** The three ways a call that is not awaited at once can go: it hands
    back a promise that resolves, it throws on the spot, or it hands back
    a promise that rejects. *)
Ltac split_fetch env c q :=
  destruct (remote env c q); [|destruct (synchronous env c q)].

(** A run of [connect] that returned [false], resp. [true]; the first
    leaves the proof that the run was a failing one. *)
Ltac connect_failed :=
  do 2 eexists; (split; [reflexivity|]); simpl;
  split; [done|]; split; [|discriminate];
  intros _; split; [|done].

Ltac connect_succeeded :=
  do 2 eexists; (split; [reflexivity|]); simpl;
  split; [|split; [discriminate|done]];
  intros Hfails;
  repeat match goal with
         | H : choice_fails _ _ |- _ => inversion H; clear H
         | H : oauth_fails _ |- _ => inversion H; clear H
         | H : manual_fails _ _ |- _ => inversion H; clear H
         end;
  try congruence.

Lemma fetched_ids_app t1 t2 :
  fetched_ids (t1 ++ t2) = fetched_ids t1 ++ fetched_ids t2.
Proof. unfold fetched_ids. apply omap_app. Qed.

(** The operations unfolded down to the join of the five fetches, which
    is left standing. *)
Ltac unfold_js_to_join :=
  cbv beta iota zeta delta
    [bind try_catch ret throw new_LinearClient emit of_outcome get_client
     set_client set_secretStorage set_storage
     console_error console_log showErrorMessage showInformationMessage
     authentication_getSession window_showQuickPick window_showInputBox
     request secretStorage_get secretStorage_store secretStorage_delete
     storage_get storage_update secretStorage_op storage_op] in *.

(** The join of five fetches through one client: it changes no module
    variable, it makes the calls of the elements that get evaluated, and
    it returns the five answers when all five return and raises
    otherwise. *)
Lemma Promise_all5_start
    (env : Env) (w : World) (c : LinearClient) (q1 q2 q3 q4 q5 : Query) :
  variables (Promise_all5 (start c q1) (start c q2) (start c q3)
               (start c q4) (start c q5) env w).2
  = variables w
  ∧ remote_calls (trace (Promise_all5 (start c q1) (start c q2) (start c q3)
                           (start c q4) (start c q5) env w).2)
    = remote_calls (trace w)
      ++ ((λ q, (c, q)) <$> evaluated env c [q1; q2; q3; q4; q5])
  ∧ match remote env c q1, remote env c q2, remote env c q3,
          remote env c q4, remote env c q5 with
    | Returns a1, Returns a2, Returns a3, Returns a4, Returns a5 =>
        (Promise_all5 (start c q1) (start c q2) (start c q3)
           (start c q4) (start c q5) env w).1
        = Returns (a1, a2, a3, a4, a5)
    | _, _, _, _, _ =>
        ∃ e, (Promise_all5 (start c q1) (start c q2) (start c q3)
                (start c q4) (start c q5) env w).1
             = Raises e
    end.
Proof.
  unfold variables, evaluated, throws_synchronously. unfold_js.
  split_fetch env c q1; split_fetch env c q2; split_fetch env c q3;
    split_fetch env c q4; split_fetch env c q5; simpl;
    rewrite !remote_calls_app; simpl;
    rewrite ?app_nil_r, <- ?app_assoc; simpl;
    (split; [reflexivity|]); (split; [reflexivity|]); eauto.
Qed.

(** Replaces the join standing in the goal by its result [r] and final
    world, keeping the three facts of [Promise_all5_start] about it. *)
Ltac name_join env c i Hvars Hcalls Hres :=
  match goal with
  | |- context [@Promise_all5 ?A ?B ?C ?D ?E ?a ?b ?d ?e ?f env ?w1] =>
      pose proof (Promise_all5_start env w1 c (assignee i) (creator i) (team i)
                    (subscribers i) (comments i 100))
        as (Hvars & Hcalls & Hres);
      set (run := @Promise_all5 A B C D E a b d e f env w1) in *;
      change (Promise_all5 (start c (assignee i)) (start c (creator i))
                (start c (team i)) (start c (subscribers i))
                (start c (comments i 100)) env w1)
        with run in Hvars, Hcalls, Hres;
      clearbody run; destruct run as [? ?]
  end.

(** ** The embedding on concrete runs *)

Example init_prefers_oauth :
  (init sample_context online_env initial_world).1 = Returns true
  ∧ _client (init sample_context online_env initial_world).2
    = Some (ClientOfAccessToken "token")
  ∧ trace (init sample_context online_env initial_world).2 = [EvGetSession false].
Proof. vm_compute. repeat split. Qed.

Example init_falls_back_to_api_key :
  (init sample_context offline_env initial_world).1 = Returns true
  ∧ _client (init sample_context offline_env initial_world).2
    = Some (ClientOfApiKey "lin_api_1").
Proof. vm_compute. repeat split. Qed.

Example store_unbound_before_init :
  (setContextIssueId (Some "ISS-1") offline_env initial_world).1 = Returns false.
Proof. reflexivity. Qed.

Example connect_with_oauth :
  (WithApiKey.connect online_env disconnected_world).1 = Returns true
  ∧ (OAuthOnly.connect online_env disconnected_world).1 = Returns true
  ∧ session_state (OAuthOnly.connect online_env disconnected_world).2 = Authenticated.
Proof. vm_compute. repeat split. Qed.

Example disconnect_then_issues :
  (getMyIssues online_env (OAuthOnly.disconnect online_env connected_world).2).1
  = Returns None.
Proof. vm_compute. reflexivity. Qed.

Example details_without_context_id :
  (WithApiKey.getContextIssueWithDetails online_env
     (with_client (Some sample_client) disconnected_world))
  = (Returns None,
     with_trace [EvStore (memento_get "linearContextIssueId")]
       (with_client (Some sample_client) disconnected_world)).
Proof. vm_compute. reflexivity. Qed.

(** ** Operations without a session *)

(** C3. With no client handle established, every session-requiring
    operation returns its absent value ([None], resp. [false]) and sends
    no request to a remote client. *)
Theorem no_session_no_remote_call
    (env : Env) (w : World) (identifier comment status : string)
    (input : IssueCreateInput) :
  _client w = None →
  refuses getMyIssues None env w
  ∧ refuses getMyTeams None env w
  ∧ refuses (getIssueByIdentifier identifier) None env w
  ∧ refuses getWorkflowStates None env w
  ∧ refuses getAvailablePriorities None env w
  ∧ refuses (addContextIssueComment comment) false env w
  ∧ refuses (setContextIssueStatus status) false env w
  ∧ refuses (createIssue input) None env w
  ∧ refuses getContextIssue None env w
  ∧ refuses WithApiKey.getContextIssueWithDetails None env w
  ∧ refuses OAuthOnly.getContextIssueWithDetails None env w.
Proof.
  intros Hc.
  repeat split_and;
    unfold refuses, getMyIssues, getMyTeams, getIssueByIdentifier,
      getWorkflowStates, getAvailablePriorities, addContextIssueComment,
      setContextIssueStatus, createIssue, getContextIssue,
      WithApiKey.getContextIssueWithDetails,
      OAuthOnly.getContextIssueWithDetails;
    unfold_js; rewrite Hc; simpl;
    (eexists; split; [reflexivity|]); simpl;
    rewrite ?remote_calls_app, ?app_nil_r; done.
Qed.

Lemma no_session_no_remote_call_witness :
  _client disconnected_world = None
  ∧ refuses getMyIssues None online_env disconnected_world
  ∧ refuses (addContextIssueComment "looks good") false online_env disconnected_world
  ∧ refuses (createIssue sample_input) None online_env disconnected_world.
Proof.
  split; [reflexivity|].
  pose proof (no_session_no_remote_call online_env disconnected_world
                "ABC-42" "looks good" "state-1" sample_input eq_refl) as H.
  split; [apply H|]. split; apply H.
Defined.

(** ** The context issue id *)

(** C5. [setContextIssueId] called with [undefined] or with the empty
    string returns [false] and leaves the whole world as it was: no store
    operation is attempted and the persisted id is the one from before. *)
Theorem setContextIssueId_missing_id (env : Env) (w : World) :
  setContextIssueId None env w = (Returns false, w)
  ∧ setContextIssueId (Some "") env w = (Returns false, w).
Proof. split; reflexivity. Qed.

(** C10. [setContextIssueId] never looks at the client handle: for every
    non-empty id, provided the store update does not raise, it returns
    [true] and the id is persisted, whatever the session state is (in
    particular with no client handle), and the handle is left alone. *)
Theorem setContextIssueId_needs_no_session (env : Env) (w : World) (id : string) :
  id ≠ "" →
  (storage_update "linearContextIssueId" id env w).1 = Returns tt →
  ∃ w', setContextIssueId (Some id) env w = (Returns true, w')
        ∧ persisted "linearContextIssueId" w' = Some id
        ∧ _client w' = _client w.
Proof.
  intros Hid Hup.
  unfold setContextIssueId.
  assert (truthy (Some id) = Some id) as -> by (apply truthy_Some; done).
  revert Hup. unfold persisted. unfold_js. simpl.
  destruct (_storage w) as [m|]; simpl; [|discriminate].
  destruct (fault env _); simpl; [discriminate|].
  intros _. eexists; split; [reflexivity|]. simpl.
  split; [apply lookup_insert_eq | reflexivity].
Qed.

Lemma setContextIssueId_needs_no_session_witness :
  _client disconnected_world = None
  ∧ ∃ w', setContextIssueId (Some "ISS-1") offline_env disconnected_world
          = (Returns true, w')
          ∧ persisted "linearContextIssueId" w' = Some "ISS-1"
          ∧ _client w' = _client disconnected_world.
Proof.
  split; [reflexivity|].
  apply (setContextIssueId_needs_no_session offline_env disconnected_world "ISS-1").
  - discriminate.
  - reflexivity.
Defined.

(** C9, as stated, at a concrete input: with both stores bound and no
    client handle, [setContextIssueId "ISS-1"] succeeds, and the
    [getContextIssue] that follows returns absent without attempting any
    fetch. *)
Lemma getContextIssue_after_set_counterexample :
  let w1 := (setContextIssueId (Some "ISS-1") online_env disconnected_world).2 in
  (setContextIssueId (Some "ISS-1") online_env disconnected_world).1 = Returns true
  ∧ (getContextIssue online_env w1).1 = Returns None
  ∧ fetched_ids (trace (getContextIssue online_env w1).2) = []
  ∧ remote_calls (trace (getContextIssue online_env w1).2) = [].
Proof. vm_compute. repeat split. Qed.

(** C9, amended. For every non-empty id, after [setContextIssueId id]
    succeeds, a [getContextIssue] that follows immediately, while a
    client handle is held and the read of the persisted id does not
    raise, sends exactly one request, the issue fetch with that id, and
    returns what the remote answered (absent when the fetch raises).
    With no client handle it returns absent and attempts nothing. *)
Theorem getContextIssue_after_set
    (env1 env2 : Env) (w w1 : World) (id : string) :
  id ≠ "" →
  setContextIssueId (Some id) env1 w = (Returns true, w1) →
  (∀ c, _client w1 = Some c →
        fault env2 (memento_get "linearContextIssueId") = None →
        ∃ w2,
          getContextIssue env2 w1
          = (Returns match remote env2 c (issue id) with
                     | Returns i => i
                     | Raises _ => None
                     end, w2)
          ∧ remote_calls (trace w2) = remote_calls (trace w1) ++ [(c, issue id)]
          ∧ fetched_ids (trace w2) = fetched_ids (trace w1) ++ [id])
  ∧ (_client w1 = None → getContextIssue env2 w1 = (Returns None, w1)).
Proof.
  intros Hid Hset.
  unfold setContextIssueId in Hset.
  assert (truthy (Some id) = Some id) as Ht by (apply truthy_Some; done).
  rewrite Ht in Hset.
  unfold getContextIssue. unfold_js. simpl in *.
  destruct (_storage w) as [m|] eqn:Hm; simpl in *.
  2: { simplify_eq. }
  destruct (fault env1 _); simplify_eq; simpl in *.
  split.
  - intros c Hc Hget.
    rewrite Hc; simpl. rewrite Hget; simpl. rewrite lookup_insert_eq, Ht.
    destruct (remote env2 c (issue id)) as [i|e]; simpl;
      (eexists; split; [reflexivity|]); simpl;
      rewrite !remote_calls_app, !fetched_ids_app; simpl;
      rewrite ?app_nil_r, <- ?app_assoc; done.
  - intros Hc. rewrite Hc. reflexivity.
Qed.

Lemma getContextIssue_after_set_witness :
  ∃ w2,
    getContextIssue online_env
      (setContextIssueId (Some "ISS-1") offline_env connected_world).2
    = (Returns (Some {| issue_id := "ISS-1" |}), w2)
    ∧ remote_calls (trace w2) = [(sample_client, issue "ISS-1")]
    ∧ fetched_ids (trace w2) = ["ISS-1"].
Proof.
  apply (proj1 (getContextIssue_after_set offline_env online_env connected_world
                  (setContextIssueId (Some "ISS-1") offline_env connected_world).2
                  "ISS-1" ltac:(discriminate) eq_refl)
           sample_client).
  - reflexivity.
  - reflexivity.
Defined.

(** ** Mutations on the remote *)

(** C7. [addContextIssueComment] checks, in this order, the session, the
    text and the context issue id, and returns [false] at the first check
    that fails: without a client handle nothing is read and nothing is
    sent, whatever the text and the stored id are; with a handle and an
    empty text the store is not read and nothing is sent; with a handle
    and a text but no (or an empty) stored id, the store has been read and
    nothing is sent.  When the three hold, exactly one request is sent,
    the creation of the comment on the context issue, and the result is
    the success flag the remote answered. *)
Theorem addContextIssueComment_validation_order
    (env : Env) (w : World) (comment : string) :
  (_client w = None →
     addContextIssueComment comment env w = (Returns false, w))
  ∧ (∀ c, _client w = Some c → comment = "" →
     addContextIssueComment comment env w = (Returns false, w))
  ∧ (∀ c stored, _client w = Some c → comment ≠ "" →
     (storage_get "linearContextIssueId" env w).1 = Returns stored →
     truthy stored = None →
     ∃ w', addContextIssueComment comment env w = (Returns false, w')
           ∧ trace w' = trace w ++ [EvStore (memento_get "linearContextIssueId")]
           ∧ remote_calls (trace w') = remote_calls (trace w))
  ∧ (∀ c id payload, _client w = Some c → comment ≠ "" →
     (storage_get "linearContextIssueId" env w).1 = Returns (Some id) →
     id ≠ "" →
     remote env c (commentCreate id comment) = Returns payload →
     ∃ w', addContextIssueComment comment env w
           = (Returns (comment_success payload), w')
           ∧ remote_calls (trace w')
             = remote_calls (trace w) ++ [(c, commentCreate id comment)]).
Proof.
  unfold addContextIssueComment. repeat split_and.
  - intros Hc. unfold_js. rewrite Hc. reflexivity.
  - intros c Hc ->. unfold_js. rewrite Hc. reflexivity.
  - intros c stored Hc Hcomment Hget Hstored.
    assert (truthy (Some comment) = Some comment) as Ht
      by (apply truthy_Some; done).
    revert Hget. unfold_js. rewrite Hc, Ht. simpl.
    destruct (_storage w) as [m|]; simpl; [|discriminate].
    destruct (fault env _); simpl; [discriminate|].
    intros [= ->]. rewrite Hstored.
    eexists; split; [reflexivity|]. simpl.
    rewrite remote_calls_app, app_nil_r. done.
  - intros c id payload Hc Hcomment Hget Hid Hremote.
    assert (truthy (Some comment) = Some comment) as Ht
      by (apply truthy_Some; done).
    assert (truthy (Some id) = Some id) as Hti by (apply truthy_Some; done).
    revert Hget. unfold_js. rewrite Hc, Ht. simpl.
    destruct (_storage w) as [m|]; simpl; [|discriminate].
    destruct (fault env _); simpl; [discriminate|].
    intros [= ->]. rewrite Hti, Hremote.
    destruct (comment_success payload); simpl;
      (eexists; split; [reflexivity|]); simpl;
      rewrite !remote_calls_app, app_nil_r; done.
Qed.

Lemma addContextIssueComment_validation_order_witness :
  ∃ w', addContextIssueComment "looks good" online_env connected_world
        = (Returns true, w')
        ∧ remote_calls (trace w')
          = [(sample_client, commentCreate "ABC-42" "looks good")].
Proof.
  apply (proj2 (proj2 (proj2
           (addContextIssueComment_validation_order
              online_env connected_world "looks good")))
           sample_client "ABC-42" {| comment_success := true |}).
  - reflexivity.
  - discriminate.
  - reflexivity.
  - discriminate.
  - reflexivity.
Defined.

(** C8. With a client handle, [createIssue] sends exactly one request,
    the creation call with the given fields, and returns the payload the
    remote answered exactly when that payload reports success; when the
    payload reports failure, or the call raises, it returns absent. *)
Theorem createIssue_returns_handle_iff_success
    (env : Env) (w : World) (c : LinearClient) (input : IssueCreateInput) :
  _client w = Some c →
  ∃ r w',
    createIssue input env w = (Returns r, w')
    ∧ remote_calls (trace w') = remote_calls (trace w) ++ [(c, issueCreate input)]
    ∧ (∀ handle, r = Some handle ↔
         remote env c (issueCreate input) = Returns handle ∧ success handle = true)
    ∧ ((∃ e, remote env c (issueCreate input) = Raises e) → r = None)
    ∧ (∀ p, remote env c (issueCreate input) = Returns p →
         success p = false → r = None).
Proof.
  intros Hc. unfold createIssue. unfold_js. rewrite Hc. simpl.
  destruct (remote env c (issueCreate input)) as [p|e] eqn:Hr; simpl.
  - destruct (success p) eqn:Hs; simpl; do 2 eexists;
      (split; [reflexivity|]); simpl;
      rewrite !remote_calls_app, ?app_nil_r; simpl;
      (split; [done|]); repeat split_and.
    + intros handle; split.
      * intros [= <-]. done.
      * intros [[= <-] _]. done.
    + intros [e [=]].
    + intros p' [= <-] Hs'. congruence.
    + intros handle; split; [discriminate|].
      intros [[= <-] Hs']. congruence.
    + done.
    + done.
  - do 2 eexists. split; [reflexivity|]. simpl.
    rewrite !remote_calls_app, <- app_assoc. simpl.
    split; [done|]. repeat split_and; try done.
    intros handle; split; [discriminate|]. intros [[=] _].
Qed.

Lemma createIssue_returns_handle_iff_success_witness :
  _client connected_world = Some sample_client
  ∧ ∃ r w',
      createIssue sample_input online_env connected_world = (Returns r, w')
      ∧ remote_calls (trace w')
        = remote_calls (trace connected_world)
          ++ [(sample_client, issueCreate sample_input)]
      ∧ (∀ handle, r = Some handle ↔
           remote online_env sample_client (issueCreate sample_input)
           = Returns handle ∧ success handle = true)
      ∧ ((∃ e, remote online_env sample_client (issueCreate sample_input)
               = Raises e) → r = None)
      ∧ (∀ p, remote online_env sample_client (issueCreate sample_input)
              = Returns p → success p = false → r = None).
Proof.
  split; [reflexivity|].
  apply (createIssue_returns_handle_iff_success online_env connected_world
           sample_client sample_input).
  reflexivity.
Defined.

(** ** The session lifecycle *)

(** C1, as stated, at a concrete input: the module holds a client handle
    and the secret store rejects the deletion of the API key.  In both
    revisions [disconnect] returns [false] and the handle is still held
    afterwards, so the session-requiring operations still reach the
    remote. *)
Lemma disconnect_keeps_client_counterexample :
  fault locked_secrets_env (secret_delete "apiKey") = Some "secret store unavailable"
  ∧ _client connected_world = Some sample_client
  ∧ (WithApiKey.disconnect locked_secrets_env connected_world).1 = Returns false
  ∧ _client (WithApiKey.disconnect locked_secrets_env connected_world).2
    = Some sample_client
  ∧ (OAuthOnly.disconnect locked_secrets_env connected_world).1 = Returns false
  ∧ _client (OAuthOnly.disconnect locked_secrets_env connected_world).2
    = Some sample_client.
Proof. vm_compute. repeat split. Qed.

(** C1, amended. [disconnect] first deletes the persisted API key.  When
    the deletion goes through, the key is gone, the client handle is
    cleared and the result is [true], also when the look-up of the OAuth
    session raises.  When the deletion raises, the result is [false] and
    the client handle is the one held before the call. *)
Theorem disconnect_clears_client_after_key (env : Env) (w : World) :
  disconnect_behaviour WithApiKey.disconnect env w
  ∧ disconnect_behaviour OAuthOnly.disconnect env w.
Proof.
  unfold disconnect_behaviour, WithApiKey.disconnect, OAuthOnly.disconnect,
    stored_secret.
  unfold_js. simpl.
  destruct (_secretStorage w) as [m|] eqn:Hm; simpl.
  - destruct (fault env (secret_delete "apiKey")) as [e|]; simpl.
    + split; (eexists; repeat split; simpl; done).
    + split.
      * destruct (getSession env false) as [[s|]|e]; simpl;
          (eexists; repeat split; simpl; apply lookup_delete_eq).
      * eexists; repeat split; simpl; apply lookup_delete_eq.
  - split; (eexists; repeat split; simpl; done).
Qed.

Lemma disconnect_clears_client_after_key_witness :
  disconnect_behaviour WithApiKey.disconnect online_env connected_world
  ∧ disconnect_behaviour OAuthOnly.disconnect locked_secrets_env connected_world.
Proof.
  split.
  - apply (proj1 (disconnect_clears_client_after_key online_env connected_world)).
  - apply (proj2 (disconnect_clears_client_after_key
                    locked_secrets_env connected_world)).
Defined.

(** C2, as stated, at a concrete input: the module already holds a client
    handle and the user dismisses the first prompt of [connect] (first
    revision), resp. the authentication provider yields no session
    (second revision).  [connect] returns [false] and the session state
    afterwards is still [Authenticated]. *)
Lemma connect_failure_counterexample :
  session_state connected_world = Authenticated
  ∧ (WithApiKey.connect offline_env connected_world).1 = Returns false
  ∧ session_state (WithApiKey.connect offline_env connected_world).2 = Authenticated
  ∧ (OAuthOnly.connect offline_env connected_world).1 = Returns false
  ∧ session_state (OAuthOnly.connect offline_env connected_world).2 = Authenticated.
Proof. vm_compute. repeat split. Qed.

(** C2, amended. Every run of [connect] that ends in cancellation or
    failure (a prompt is dismissed or raises, the provider raises or
    yields no usable session, the validation call or the storing of the
    key raises) returns [false] and leaves the client handle as it was
    before the call: a module that was Unauthenticated is Unauthenticated
    afterwards, and a module that held a handle still holds it.  Every
    other run returns [true] with a handle held. *)
Theorem connect_failure_preserves_session (env : Env) (w : World) :
  connect_outcome WithApiKey.connect (choice_fails env w) env w
  ∧ connect_outcome OAuthOnly.connect (oauth_fails env) env w.
Proof.
  split.
  - unfold connect_outcome, WithApiKey.connect, session_state.
    unfold_js. simpl.
    destruct (showQuickPick env) as [[label|]|e] eqn:Hpick; simpl.
    + destruct (decide (label = "Sign in with OAuth")) as [->|Hlabel]; simpl.
      * destruct (getSession env true) as [[s|]|e] eqn:Hs; simpl.
        -- destruct (decide (accessToken s = "")) as [Htok|Htok]; simpl.
           ++ connect_failed. eauto using choice_fails, oauth_fails.
           ++ connect_succeeded.
        -- connect_failed. eauto using choice_fails, oauth_fails.
        -- connect_failed. eauto using choice_fails, oauth_fails.
      * destruct (showInputBox env) as [input|e] eqn:Hin; simpl.
        -- destruct (truthy input) as [key|] eqn:Hkey; simpl.
           ++ apply truthy_Some in Hkey as [-> Hkey].
              destruct (decide (key = "")) as [|_]; [done|]. simpl.
              destruct (remote env (ClientOfApiKey key) viewer)
                as [u|e] eqn:Hv; simpl.
              ** destruct (_secretStorage w) as [m|] eqn:Hm; simpl.
                 --- destruct (fault env (secret_store "apiKey" key))
                       as [e|] eqn:Hf; simpl.
                     +++ connect_failed.
                         eapply pick_manual; [done..|].
                         eapply manual_store_raises; [done..|].
                         unfold_js. simpl. rewrite Hm. simpl.
                         rewrite Hf. reflexivity.
                     +++ connect_succeeded.
                         *** match goal with
                             | H : truthy ?i = None |- _ =>
                                 assert (i = Some key) as -> by congruence;
                                 assert (truthy (Some key) = Some key)
                                   by (apply truthy_Some; done);
                                 congruence
                             end.
                         *** match goal with
                             | H : (secretStorage_store "apiKey" ?k env w).1
                                   = Raises _ |- _ =>
                                 assert (k = key) as -> by congruence; revert H
                             end.
                             unfold_js. simpl. rewrite Hm. simpl.
                             rewrite Hf. discriminate.
                 --- connect_failed.
                     eapply pick_manual; [done..|].
                     eapply manual_store_raises; [done..|].
                     unfold_js. simpl. rewrite Hm. reflexivity.
              ** connect_failed. eauto using choice_fails, manual_fails.
           ++ connect_failed. eauto using choice_fails, manual_fails.
        -- connect_failed. eauto using choice_fails, manual_fails.
    + connect_failed. eauto using choice_fails.
    + connect_failed. eauto using choice_fails.
  - unfold connect_outcome, OAuthOnly.connect, session_state.
    unfold_js. simpl.
    destruct (getSession env true) as [[s|]|e] eqn:Hs; simpl.
    + destruct (decide (accessToken s = "")) as [Htok|Htok]; simpl.
      * connect_failed. eauto using oauth_fails.
      * connect_succeeded.
    + connect_failed. eauto using oauth_fails.
    + connect_failed. eauto using oauth_fails.
Qed.

Lemma connect_failure_preserves_session_witness :
  choice_fails offline_env disconnected_world
  ∧ ∃ w', WithApiKey.connect offline_env disconnected_world = (Returns false, w')
          ∧ _client w' = _client disconnected_world
          ∧ session_state w' = Unauthenticated.
Proof.
  assert (choice_fails offline_env disconnected_world) as Hfails
    by (apply pick_dismissed; reflexivity).
  split; [exact Hfails|].
  destruct (proj1 (connect_failure_preserves_session
                     offline_env disconnected_world))
    as (b & w' & Hrun & Hfalse & Hkeep & _).
  exists w'. rewrite (Hfalse Hfails) in Hrun, Hkeep.
  destruct (Hkeep eq_refl) as (_ & Hc & Hst).
  repeat split; [exact Hrun | exact Hc | rewrite Hst; reflexivity].
Defined.

(** C6, as stated, at two concrete inputs.  First: [init] runs on a
    module that already holds a client handle while the provider has no
    session and no API key is persisted; it returns [false] although a
    usable session exists afterwards.  Second: the provider holds an OAuth
    session whose access token is empty and a valid API key is persisted;
    the constructor throws, [init] returns [false] with no client handle,
    and the persisted key is never consulted. *)
Lemma init_result_counterexample :
  ((init {| secrets := ∅; workspaceState := ∅ |} offline_env connected_world).1
   = Returns false
   ∧ session_state
       (init {| secrets := ∅; workspaceState := ∅ |} offline_env connected_world).2
     = Authenticated)
  ∧ (getSession empty_token_env false = Returns (Some {| accessToken := "" |})
     ∧ secrets sample_context !! "apiKey" = Some "lin_api_1"
     ∧ (init sample_context empty_token_env initial_world).1 = Returns false
     ∧ _client (init sample_context empty_token_env initial_world).2 = None
     ∧ trace (init sample_context empty_token_env initial_world).2
       = [EvGetSession false; EvConsoleError "Error initializing Linear client"]).
Proof. vm_compute. repeat split. Qed.

(** C6, amended. [init] always returns a boolean, whatever the
    collaborators do.  It asks for an existing OAuth session first (never
    creating one).  When there is one with a non-empty access token, the
    client is built from that token and the secret store is not
    consulted; when its access token is empty, the constructor throws,
    the result is [false] and the secret store is not consulted either.
    Only when there is no session is the persisted API key read, and a
    non-empty key yields a client built from it.  When a look-up raises,
    or no credential is found, the result is [false].  The result is
    [true] exactly when this call established a client handle: on [true]
    a handle is held, on [false] the handle is the one from before the
    call, so on a module that held none the result tells whether a usable
    session now exists. *)
Theorem init_restores_session_by_precedence
    (context : ExtensionContext) (env : Env) (w : World) :
  ∃ b w',
    init context env w = (Returns b, w')
    ∧ (b = true → session_state w' = Authenticated)
    ∧ (b = false → _client w' = _client w)
    ∧ (_client w = None → (b = true ↔ session_state w' = Authenticated))
    ∧ match getSession env false with
      | Returns (Some s) =>
          if decide (accessToken s = "") then
            b = false
            ∧ trace w' = trace w ++ [EvGetSession false;
                                     EvConsoleError "Error initializing Linear client"]
          else
            b = true
            ∧ _client w' = Some (ClientOfAccessToken (accessToken s))
            ∧ trace w' = trace w ++ [EvGetSession false]
      | Returns None =>
          match fault env (secret_get "apiKey"),
                truthy (secrets context !! "apiKey") with
          | None, Some key =>
              b = true
              ∧ _client w' = Some (ClientOfApiKey key)
              ∧ trace w' = trace w ++ [EvGetSession false;
                                       EvStore (secret_get "apiKey")]
          | None, None =>
              b = false
              ∧ trace w' = trace w ++ [EvGetSession false;
                                       EvStore (secret_get "apiKey")]
          | Some _, _ =>
              b = false
              ∧ trace w' = trace w ++ [EvGetSession false;
                                       EvStore (secret_get "apiKey");
                                       EvConsoleError "Error initializing Linear client"]
          end
      | Raises _ =>
          b = false
          ∧ trace w' = trace w ++ [EvGetSession false;
                                   EvConsoleError "Error initializing Linear client"]
      end.
Proof.
  unfold init, session_state. unfold_js. simpl.
  destruct (getSession env false) as [[s|]|e]; simpl.
  - destruct (decide (accessToken s = "")); simpl;
      do 2 eexists; (split; [reflexivity|]); simpl;
      rewrite <- ?app_assoc; simpl; repeat split_and; try done.
    intros ->. split; done.
  - destruct (fault env (secret_get "apiKey")) as [e|]; simpl.
    + do 2 eexists. split; [reflexivity|]. simpl.
      rewrite <- !app_assoc. simpl.
      repeat split_and; try done.
      intros ->. split; done.
    + destruct (truthy (secrets context !! "apiKey")) as [key|] eqn:Hkey; simpl.
      * apply truthy_Some in Hkey as [_ Hkey].
        destruct (decide (key = "")); [done|]. simpl.
        do 2 eexists; (split; [reflexivity|]); simpl;
          rewrite <- ?app_assoc; simpl; repeat split_and; done.
      * do 2 eexists; (split; [reflexivity|]); simpl;
          rewrite <- ?app_assoc; simpl; repeat split_and; try done.
        intros ->. split; done.
  - do 2 eexists. split; [reflexivity|]. simpl.
    rewrite <- !app_assoc. simpl.
    repeat split_and; try done.
    intros ->. split; done.
Qed.

Lemma init_restores_session_by_precedence_witness :
  ∃ b w',
    init sample_context online_env initial_world = (Returns b, w')
    ∧ b = true
    ∧ _client w' = Some (ClientOfAccessToken "token")
    ∧ trace w' = [EvGetSession false].
Proof.
  destruct (init_restores_session_by_precedence
              sample_context online_env initial_world)
    as (b & w' & Hrun & _ & _ & _ & Hb & Hc & Ht).
  exists b, w'. repeat split; assumption.
Defined.

(** ** The detail bundle *)

(** C4. With a client handle, a stored context id and an issue fetch
    that succeeds: when one of the five dependent fetches (assignee,
    creator, team, subscribers, comments) raises, both revisions return
    absent; when the five return, both revisions return the bundle whose
    fields are what the fetches answered, an absent relation (no
    assignee, no creator, no team) being an absent field of the bundle. *)
Theorem getContextIssueWithDetails_all_or_nothing
    (env : Env) (w : World) (c : LinearClient) (id : string) (i : Issue) :
  _client w = Some c →
  (storage_get "linearContextIssueId" env w).1 = Returns (Some id) →
  id ≠ "" →
  remote env c (issue id) = Returns (Some i) →
  (sub_fetch_fails env c i →
     (WithApiKey.getContextIssueWithDetails env w).1 = Returns None
     ∧ (OAuthOnly.getContextIssueWithDetails env w).1 = Returns None)
  ∧ (∀ a cr t sc cc,
       remote env c (assignee i) = Returns a →
       remote env c (creator i) = Returns cr →
       remote env c (team i) = Returns t →
       remote env c (subscribers i) = Returns sc →
       remote env c (comments i 100) = Returns cc →
       (WithApiKey.getContextIssueWithDetails env w).1
       = Returns (Some {| details_issue := i;
                          details_assignee := a;
                          details_creator := cr;
                          details_team := t;
                          details_subscribers := Some (default [] (nodes <$> sc));
                          details_comments := Some (default [] (nodes <$> cc)) |})
       ∧ (OAuthOnly.getContextIssueWithDetails env w).1
         = Returns (Some {| details_issue := i;
                            details_assignee := a;
                            details_creator := cr;
                            details_team := t;
                            details_subscribers := nodes <$> sc;
                            details_comments := nodes <$> cc |})).
Proof.
  intros Hc Hget Hid Hissue.
  assert (truthy (Some id) = Some id) as Ht by (apply truthy_Some; done).
  unfold WithApiKey.getContextIssueWithDetails,
    OAuthOnly.getContextIssueWithDetails, sub_fetch_fails.
  revert Hget. unfold_js_to_join. rewrite Hc. simpl.
  destruct (_storage w) as [m|]; simpl; [|discriminate].
  destruct (fault env _); simpl; [discriminate|].
  intros [= ->]. rewrite Ht, Hissue. simpl.
  name_join env c i Hvars Hcalls Hres. simpl in Hres.
  destruct (remote env c (assignee i)) as [a|ea];
    destruct (remote env c (creator i)) as [cr|ecr];
    destruct (remote env c (team i)) as [t|et];
    destruct (remote env c (subscribers i)) as [sc|esc];
    destruct (remote env c (comments i 100)) as [cc|ecc];
    try (lazymatch type of Hres with ex _ => destruct Hres as [err Hres] end);
    simpl in Hres; subst; simpl;
    (split;
     [ intros Hfail; try done;
       destruct Hfail as [[? ?]|[[? ?]|[[? ?]|[[? ?]|[? ?]]]]]; discriminate
     | intros ? ? ? ? ? ? ? ? ? ?; simplify_eq; done ]).
Qed.

Lemma getContextIssueWithDetails_all_or_nothing_witness :
  (WithApiKey.getContextIssueWithDetails online_env connected_world).1
  = Returns (Some {| details_issue := {| issue_id := "ABC-42" |};
                     details_assignee := None;
                     details_creator := Some {| user_id := "author" |};
                     details_team := Some {| team_id := "team-1" |};
                     details_subscribers := Some [];
                     details_comments :=
                       Some [ {| comment_id := "c1" |}; {| comment_id := "c2" |} ] |})
  ∧ (OAuthOnly.getContextIssueWithDetails online_env connected_world).1
    = Returns (Some {| details_issue := {| issue_id := "ABC-42" |};
                       details_assignee := None;
                       details_creator := Some {| user_id := "author" |};
                       details_team := Some {| team_id := "team-1" |};
                       details_subscribers := Some [];
                       details_comments :=
                         Some [ {| comment_id := "c1" |}; {| comment_id := "c2" |} ] |}).
Proof.
  apply (proj2 (getContextIssueWithDetails_all_or_nothing
                  online_env connected_world sample_client "ABC-42"
                  {| issue_id := "ABC-42" |}
                  eq_refl eq_refl ltac:(discriminate) eq_refl)
           None (Some {| user_id := "author" |}) (Some {| team_id := "team-1" |})
           (Some {| nodes := [] |})
           (Some {| nodes := [ {| comment_id := "c1" |}; {| comment_id := "c2" |} ] |}));
    reflexivity.
Defined.

(** * Further properties of the module *)

(** ** Read-only operations *)

(** X1. No data operation changes the module variables: the client
    handle and the contents of both stores are after the call what they
    were before it, whatever the collaborators answer. *)
Theorem data_operations_keep_variables
    (env : Env) (w : World) (identifier comment status : string)
    (input : IssueCreateInput) :
  variables (getMyIssues env w).2 = variables w
  ∧ variables (getMyTeams env w).2 = variables w
  ∧ variables (getIssueByIdentifier identifier env w).2 = variables w
  ∧ variables (getWorkflowStates env w).2 = variables w
  ∧ variables (getAvailablePriorities env w).2 = variables w
  ∧ variables (addContextIssueComment comment env w).2 = variables w
  ∧ variables (setContextIssueStatus status env w).2 = variables w
  ∧ variables (createIssue input env w).2 = variables w
  ∧ variables (getContextIssue env w).2 = variables w
  ∧ variables (WithApiKey.getContextIssueWithDetails env w).2 = variables w
  ∧ variables (OAuthOnly.getContextIssueWithDetails env w).2 = variables w.
Proof.
  repeat split_and.
  1-9: unfold variables, getMyIssues, getMyTeams, getIssueByIdentifier,
         getWorkflowStates, getAvailablePriorities, addContextIssueComment,
         setContextIssueStatus, createIssue, getContextIssue;
       unfold_js; js_cases; congruence.
  all: unfold WithApiKey.getContextIssueWithDetails,
         OAuthOnly.getContextIssueWithDetails;
       unfold_js_to_join;
       destruct (_client w) as [c|] eqn:Hc; simpl; [|reflexivity];
       destruct (_storage w) as [m|] eqn:Hm; simpl;
         [|unfold variables; simpl; congruence];
       destruct (fault env _); simpl;
         [unfold variables; simpl; congruence|];
       destruct (truthy (m !! "linearContextIssueId")) as [id|]; simpl;
         [|unfold variables; simpl; congruence];
       destruct (remote env c (issue id)) as [[i|]|e]; simpl;
         try (unfold variables; simpl; congruence);
       name_join env c i Hvars Hcalls Hres;
       revert Hvars; unfold variables; simpl;
       repeat (case_match; simpl); congruence.
Qed.

(** X2. With a client handle, [getMyIssues] and [getMyTeams] ask for the
    viewer first.  When that request raises, nothing else is requested
    and the result is absent; when it returns, exactly one more request
    is sent, through the viewer it returned, and the result is the list
    that request answered, or absent when it raises. *)
Theorem listing_starts_with_viewer (env : Env) (w : World) (c : LinearClient) :
  _client w = Some c →
  match remote env c viewer with
  | Raises _ =>
      (getMyIssues env w).1 = Returns None
      ∧ remote_calls (trace (getMyIssues env w).2)
        = remote_calls (trace w) ++ [(c, viewer)]
      ∧ (getMyTeams env w).1 = Returns None
      ∧ remote_calls (trace (getMyTeams env w).2)
        = remote_calls (trace w) ++ [(c, viewer)]
  | Returns me =>
      (getMyIssues env w).1
      = Returns match remote env c (assignedIssues me) with
                | Returns connection => Some (nodes connection)
                | Raises _ => None
                end
      ∧ remote_calls (trace (getMyIssues env w).2)
        = remote_calls (trace w) ++ [(c, viewer); (c, assignedIssues me)]
      ∧ (getMyTeams env w).1
        = Returns match remote env c (teams me) with
                  | Returns connection => Some (nodes connection)
                  | Raises _ => None
                  end
      ∧ remote_calls (trace (getMyTeams env w).2)
        = remote_calls (trace w) ++ [(c, viewer); (c, teams me)]
  end.
Proof.
  intros Hc. unfold getMyIssues, getMyTeams. unfold_js. rewrite Hc. simpl.
  destruct (remote env c viewer) as [me|e]; simpl.
  - destruct (remote env c (assignedIssues me)) as [ci|ei];
      destruct (remote env c (teams me)) as [ct|et]; simpl;
      rewrite !remote_calls_app; simpl;
      rewrite ?app_nil_r, <- ?app_assoc; done.
  - rewrite !remote_calls_app; simpl. rewrite ?app_nil_r. done.
Qed.

Lemma listing_starts_with_viewer_witness :
  (getMyIssues online_env connected_world).1 = Returns (Some [])
  ∧ remote_calls (trace (getMyIssues online_env connected_world).2)
    = [(sample_client, viewer);
       (sample_client, assignedIssues {| user_id := "me" |})]
  ∧ (getMyTeams online_env connected_world).1 = Returns (Some [])
  ∧ remote_calls (trace (getMyTeams online_env connected_world).2)
    = [(sample_client, viewer); (sample_client, teams {| user_id := "me" |})].
Proof.
  apply (listing_starts_with_viewer online_env connected_world sample_client).
  reflexivity.
Defined.

(** X3. With a client handle, [getIssueByIdentifier], [getWorkflowStates]
    and [getAvailablePriorities] each send exactly one request and return
    what it answered; a request that raises gives absent, never an
    exception. *)
Theorem single_request_lookups
    (env : Env) (w : World) (c : LinearClient) (identifier : string) :
  _client w = Some c →
  ((getIssueByIdentifier identifier env w).1
   = Returns match remote env c (issue identifier) with
             | Returns found => found
             | Raises _ => None
             end
   ∧ remote_calls (trace (getIssueByIdentifier identifier env w).2)
     = remote_calls (trace w) ++ [(c, issue identifier)])
  ∧ ((getWorkflowStates env w).1
     = Returns match remote env c workflowStates with
               | Returns connection => Some (nodes connection)
               | Raises _ => None
               end
     ∧ remote_calls (trace (getWorkflowStates env w).2)
       = remote_calls (trace w) ++ [(c, workflowStates)])
  ∧ ((getAvailablePriorities env w).1
     = Returns match remote env c issuePriorityValues with
               | Returns values => Some values
               | Raises _ => None
               end
     ∧ remote_calls (trace (getAvailablePriorities env w).2)
       = remote_calls (trace w) ++ [(c, issuePriorityValues)]).
Proof.
  intros Hc.
  unfold getIssueByIdentifier, getWorkflowStates, getAvailablePriorities.
  unfold_js. rewrite Hc. simpl.
  destruct (remote env c (issue identifier));
    destruct (remote env c workflowStates);
    destruct (remote env c issuePriorityValues); simpl;
    rewrite !remote_calls_app; simpl; rewrite ?app_nil_r; done.
Qed.

Lemma single_request_lookups_witness :
  (getIssueByIdentifier "ABC-42" online_env connected_world).1
  = Returns (Some {| issue_id := "ABC-42" |})
  ∧ remote_calls (trace (getIssueByIdentifier "ABC-42" online_env connected_world).2)
    = [(sample_client, issue "ABC-42")].
Proof.
  apply (single_request_lookups online_env connected_world sample_client "ABC-42").
  reflexivity.
Defined.

(** X4. [getTeamMembers] never raises.  Without a client handle it
    returns absent without calling the [members] method of the team it
    was given: the world only gains the logged error.  With a handle it
    returns the members the method answered, or absent when the method
    raises. *)
Theorem getTeamMembers_needs_session (env : Env) (w : World) (t : TeamObject) :
  (_client w = None →
     getTeamMembers t env w
     = (Returns None,
        with_trace (trace w ++ [EvConsoleError "No initialized Linear client found"]) w))
  ∧ (∀ c, _client w = Some c →
       ∃ r w', getTeamMembers t env w = (Returns r, w')
               ∧ match (members t env w).1 with
                 | Returns connection => r = Some (nodes connection)
                 | Raises _ => r = None
                 end).
Proof.
  unfold getTeamMembers. unfold_js. split.
  - intros Hc. rewrite Hc. reflexivity.
  - intros c Hc. rewrite Hc.
    destruct (members t env w) as [[connection|e] w1]; simpl;
      do 2 eexists; split; reflexivity.
Qed.

Lemma getTeamMembers_needs_session_witness :
  getTeamMembers {| team_entity := {| team_id := "team-1" |};
                    members := request sample_client viewer;;
                               ret {| nodes := [ {| user_id := "me" |} ] |} |}
    online_env disconnected_world
  = (Returns None,
     with_trace [EvConsoleError "No initialized Linear client found"]
       disconnected_world).
Proof.
  apply (proj1 (getTeamMembers_needs_session online_env disconnected_world _)).
  reflexivity.
Defined.

(** ** Mutations of the context issue *)

(** X5. [setContextIssueStatus] with a client handle: an empty state id
    gives [false] with the world untouched; a missing or empty stored
    context id gives [false] with no request sent; otherwise exactly one
    request is sent, the update of the context issue to the given state,
    and the result is the success flag it answered, or [false] when it
    raises. *)
Theorem setContextIssueStatus_validation
    (env : Env) (w : World) (c : LinearClient) (status : string) :
  _client w = Some c →
  (status = "" → setContextIssueStatus status env w = (Returns false, w))
  ∧ (∀ stored, status ≠ "" →
       (storage_get "linearContextIssueId" env w).1 = Returns stored →
       truthy stored = None →
       (setContextIssueStatus status env w).1 = Returns false
       ∧ remote_calls (trace (setContextIssueStatus status env w).2)
         = remote_calls (trace w))
  ∧ (∀ id, status ≠ "" →
       (storage_get "linearContextIssueId" env w).1 = Returns (Some id) →
       id ≠ "" →
       (setContextIssueStatus status env w).1
       = Returns match remote env c (issueUpdate id status) with
                 | Returns payload => success payload
                 | Raises _ => false
                 end
       ∧ remote_calls (trace (setContextIssueStatus status env w).2)
         = remote_calls (trace w) ++ [(c, issueUpdate id status)]).
Proof.
  intros Hc. unfold setContextIssueStatus. repeat split_and.
  - intros ->. unfold_js. rewrite Hc. reflexivity.
  - intros stored Hstatus Hget Hstored.
    assert (truthy (Some status) = Some status) as Ht
      by (apply truthy_Some; done).
    revert Hget. unfold_js. rewrite Hc, Ht. simpl.
    destruct (_storage w) as [m|]; simpl; [|discriminate].
    destruct (fault env _); simpl; [discriminate|].
    intros [= ->]. rewrite Hstored. simpl.
    rewrite remote_calls_app, app_nil_r. done.
  - intros id Hstatus Hget Hid.
    assert (truthy (Some status) = Some status) as Ht
      by (apply truthy_Some; done).
    assert (truthy (Some id) = Some id) as Hti by (apply truthy_Some; done).
    revert Hget. unfold_js. rewrite Hc, Ht. simpl.
    destruct (_storage w) as [m|]; simpl; [|discriminate].
    destruct (fault env _); simpl; [discriminate|].
    intros [= ->]. rewrite Hti.
    destruct (remote env c (issueUpdate id status)) as [p|e]; simpl;
      [destruct (success p)|]; simpl;
      rewrite !remote_calls_app; simpl; rewrite ?app_nil_r; done.
Qed.

Lemma setContextIssueStatus_validation_witness :
  (setContextIssueStatus "state-1" online_env connected_world).1 = Returns true
  ∧ remote_calls (trace (setContextIssueStatus "state-1" online_env connected_world).2)
    = [(sample_client, issueUpdate "ABC-42" "state-1")].
Proof.
  apply (proj2 (proj2 (setContextIssueStatus_validation
                         online_env connected_world sample_client "state-1"
                         eq_refl))
           "ABC-42").
  - discriminate.
  - reflexivity.
  - discriminate.
Defined.

(** X6. [addContextIssueComment] with a client handle and a text: when
    reading the stored context id raises, the result is [false] and no
    request is sent; when the creation request raises, the result is
    [false] after that one request, which is not repeated. *)
Theorem addContextIssueComment_failures
    (env : Env) (w : World) (c : LinearClient) (comment : string) :
  _client w = Some c →
  comment ≠ "" →
  (∀ e, (storage_get "linearContextIssueId" env w).1 = Raises e →
     (addContextIssueComment comment env w).1 = Returns false
     ∧ remote_calls (trace (addContextIssueComment comment env w).2)
       = remote_calls (trace w))
  ∧ (∀ id e,
       (storage_get "linearContextIssueId" env w).1 = Returns (Some id) →
       id ≠ "" →
       remote env c (commentCreate id comment) = Raises e →
       (addContextIssueComment comment env w).1 = Returns false
       ∧ remote_calls (trace (addContextIssueComment comment env w).2)
         = remote_calls (trace w) ++ [(c, commentCreate id comment)]).
Proof.
  intros Hc Hcomment.
  assert (truthy (Some comment) = Some comment) as Ht
    by (apply truthy_Some; done).
  unfold addContextIssueComment. split.
  - intros e. unfold_js. rewrite Hc, Ht. simpl.
    destruct (_storage w) as [m|]; simpl.
    + destruct (fault env _); simpl; [|discriminate].
      intros _. rewrite !remote_calls_app. simpl. rewrite !app_nil_r. done.
    + intros _. rewrite !remote_calls_app. simpl. rewrite !app_nil_r. done.
  - intros id e Hget Hid Hremote.
    assert (truthy (Some id) = Some id) as Hti by (apply truthy_Some; done).
    revert Hget. unfold_js. rewrite Hc, Ht. simpl.
    destruct (_storage w) as [m|]; simpl; [|discriminate].
    destruct (fault env _); simpl; [discriminate|].
    intros [= ->]. rewrite Hti, Hremote. simpl.
    rewrite !remote_calls_app. simpl. rewrite ?app_nil_r. done.
Qed.

Lemma addContextIssueComment_failures_witness :
  (addContextIssueComment "looks good" offline_env connected_world).1
  = Returns false
  ∧ remote_calls (trace (addContextIssueComment "looks good" offline_env
                           connected_world).2)
    = [(sample_client, commentCreate "ABC-42" "looks good")].
Proof.
  apply (proj2 (addContextIssueComment_failures
                  offline_env connected_world sample_client "looks good"
                  eq_refl ltac:(discriminate))
           "ABC-42" "offline").
  - reflexivity.
  - discriminate.
  - reflexivity.
Defined.

(** X7. When the store update raises, [setContextIssueId] returns
    [false], logs the error and leaves the client handle and both stores
    as they were.  When the store variable is not bound yet the call
    throws before any store is reached, so only the error is logged;
    when a bound store rejects the update, the update call precedes the
    logged error. *)
Theorem setContextIssueId_update_raises
    (env : Env) (w : World) (id : string) (e : Error) :
  id ≠ "" →
  (storage_update "linearContextIssueId" id env w).1 = Raises e →
  setContextIssueId (Some id) env w
  = (Returns false,
     with_trace
       (trace w
        ++ match _storage w with
           | Some _ => [EvStore (memento_update "linearContextIssueId" id)]
           | None => []
           end
        ++ [EvConsoleError "Error setting context issue"]) w).
Proof.
  intros Hid.
  assert (truthy (Some id) = Some id) as Ht by (apply truthy_Some; done).
  unfold setContextIssueId. rewrite Ht. unfold_js. simpl.
  destruct (_storage w) as [m|] eqn:Hm; simpl.
  - destruct (fault env _); simpl; [|discriminate].
    intros _. unfold with_trace. simpl. rewrite <- app_assoc, Hm. reflexivity.
  - intros _. unfold with_trace. simpl. rewrite Hm. reflexivity.
Qed.

Lemma setContextIssueId_update_raises_witness :
  setContextIssueId (Some "ISS-1") offline_env initial_world
  = (Returns false,
     with_trace [EvConsoleError "Error setting context issue"] initial_world).
Proof.
  apply (setContextIssueId_update_raises offline_env initial_world "ISS-1" TypeError).
  - discriminate.
  - reflexivity.
Defined.

(** X8. The context issue id is a single slot: after two successful
    calls of [setContextIssueId] the persisted id is the second one, every
    other key of the workspace store holds what it held before, and the
    client handle and the secret store are untouched. *)
Theorem setContextIssueId_last_write_wins
    (env1 env2 : Env) (w w1 w2 : World) (id1 id2 : option string) :
  setContextIssueId id1 env1 w = (Returns true, w1) →
  setContextIssueId id2 env2 w1 = (Returns true, w2) →
  persisted "linearContextIssueId" w2 = id2
  ∧ (∀ key, key ≠ "linearContextIssueId" → persisted key w2 = persisted key w)
  ∧ _client w2 = _client w
  ∧ _secretStorage w2 = _secretStorage w.
Proof.
  unfold setContextIssueId, persisted. intros H1 H2.
  destruct (truthy id1) as [a|] eqn:Ha; [|discriminate].
  destruct (truthy id2) as [b|] eqn:Hb; [|discriminate].
  apply truthy_Some in Hb as [-> _].
  revert H1 H2. unfold_js. simpl.
  destruct (_storage w) as [m|]; simpl; [|discriminate].
  destruct (fault env1 _); simpl; [discriminate|].
  intros [= <-]. simpl.
  destruct (fault env2 _); simpl; [discriminate|].
  intros [= <-]. simpl.
  repeat split_and; try done.
  - by rewrite lookup_insert_eq.
  - intros key Hkey. by rewrite !lookup_insert_ne.
Qed.

Lemma setContextIssueId_last_write_wins_witness :
  persisted "linearContextIssueId"
    (setContextIssueId (Some "ISS-2") offline_env
       (setContextIssueId (Some "ISS-1") offline_env connected_world).2).2
  = Some "ISS-2".
Proof.
  apply (setContextIssueId_last_write_wins offline_env offline_env
           connected_world _ _ (Some "ISS-1") (Some "ISS-2") eq_refl eq_refl).
Defined.

(** X9. The id persisted by [setContextIssueId] is the target of the
    mutations that follow: with a client handle and a store read that
    does not raise, [addContextIssueComment] sends its comment to that
    issue and [setContextIssueStatus] updates that issue, each with one
    request. *)
Theorem context_issue_is_mutation_target
    (env1 env2 : Env) (w w1 : World) (c : LinearClient)
    (id comment status : string) :
  setContextIssueId (Some id) env1 w = (Returns true, w1) →
  _client w1 = Some c →
  fault env2 (memento_get "linearContextIssueId") = None →
  (comment ≠ "" →
     remote_calls (trace (addContextIssueComment comment env2 w1).2)
     = remote_calls (trace w1) ++ [(c, commentCreate id comment)])
  ∧ (status ≠ "" →
     remote_calls (trace (setContextIssueStatus status env2 w1).2)
     = remote_calls (trace w1) ++ [(c, issueUpdate id status)]).
Proof.
  intros Hset Hc Hget.
  unfold setContextIssueId in Hset.
  destruct (truthy (Some id)) as [a|] eqn:Ht; [|discriminate].
  pose proof Ht as Ht'. apply truthy_Some in Ht' as [[= <-] Hid].
  revert Hset. unfold_js. simpl.
  destruct (_storage w) as [m|] eqn:Hm; simpl; [|discriminate].
  destruct (fault env1 _); simpl; [discriminate|].
  intros [= <-]. simpl in Hc.
  split.
  - intros Hcomment.
    assert (truthy (Some comment) = Some comment) as Htc
      by (apply truthy_Some; done).
    unfold addContextIssueComment. unfold_js. simpl.
    rewrite Hc, Htc. simpl. rewrite Hget. simpl.
    rewrite lookup_insert_eq, Ht.
    destruct (remote env2 c (commentCreate id comment)) as [p|e]; simpl;
      [destruct (comment_success p)|]; simpl;
      rewrite !remote_calls_app; simpl; rewrite ?app_nil_r; done.
  - intros Hstatus.
    assert (truthy (Some status) = Some status) as Hts
      by (apply truthy_Some; done).
    unfold setContextIssueStatus. unfold_js. simpl.
    rewrite Hc, Hts. simpl. rewrite Hget. simpl.
    rewrite lookup_insert_eq, Ht.
    destruct (remote env2 c (issueUpdate id status)) as [p|e]; simpl;
      [destruct (success p)|]; simpl;
      rewrite !remote_calls_app; simpl; rewrite ?app_nil_r; done.
Qed.

Lemma context_issue_is_mutation_target_witness :
  remote_calls
    (trace (addContextIssueComment "looks good" online_env
              (setContextIssueId (Some "ISS-1") offline_env connected_world).2).2)
  = [(sample_client, commentCreate "ISS-1" "looks good")].
Proof.
  apply (proj1 (context_issue_is_mutation_target offline_env online_env
                  connected_world _ sample_client "ISS-1" "looks good" "state-1"
                  eq_refl eq_refl eq_refl)).
  discriminate.
Defined.

(** ** Connecting and disconnecting *)

(** X10. Connecting over OAuth leaves both stores alone: the second
    revision of [connect] on every run, the first on every run where the
    user picks the OAuth entry.  A persisted API key is neither written
    nor cleared.  When the provider yields a session with a non-empty
    access token, the result is [true] and the client handle is the one
    built from that token; when the token is empty, the constructor
    throws, the result is [false] and the client handle is the one from
    before the call. *)
Theorem connect_oauth_keeps_stores (env : Env) (w : World) :
  (_secretStorage (OAuthOnly.connect env w).2 = _secretStorage w
   ∧ _storage (OAuthOnly.connect env w).2 = _storage w)
  ∧ (showQuickPick env = Returns (Some "Sign in with OAuth") →
     _secretStorage (WithApiKey.connect env w).2 = _secretStorage w
     ∧ _storage (WithApiKey.connect env w).2 = _storage w)
  ∧ (∀ s, getSession env true = Returns (Some s) →
     accessToken s ≠ "" →
     (OAuthOnly.connect env w).1 = Returns true
     ∧ _client (OAuthOnly.connect env w).2
       = Some (ClientOfAccessToken (accessToken s))
     ∧ (showQuickPick env = Returns (Some "Sign in with OAuth") →
        (WithApiKey.connect env w).1 = Returns true
        ∧ _client (WithApiKey.connect env w).2
          = Some (ClientOfAccessToken (accessToken s))))
  ∧ (∀ s, getSession env true = Returns (Some s) →
     accessToken s = "" →
     (OAuthOnly.connect env w).1 = Returns false
     ∧ _client (OAuthOnly.connect env w).2 = _client w
     ∧ (showQuickPick env = Returns (Some "Sign in with OAuth") →
        (WithApiKey.connect env w).1 = Returns false
        ∧ _client (WithApiKey.connect env w).2 = _client w)).
Proof.
  unfold OAuthOnly.connect, WithApiKey.connect. unfold_js. simpl.
  split; [|split; [|split]].
  - destruct (getSession env true) as [[s|]|e]; simpl;
      [destruct (decide (accessToken s = ""))|..]; split; reflexivity.
  - intros ->. simpl.
    destruct (getSession env true) as [[s|]|e]; simpl;
      [destruct (decide (accessToken s = ""))|..]; split; reflexivity.
  - intros s Hs Htok. rewrite Hs. simpl.
    destruct (decide (accessToken s = "")); [done|]. simpl.
    repeat split_and; try reflexivity.
    intros ->. simpl. rewrite Hs. simpl.
    destruct (decide (accessToken s = "")); [done|]. split; reflexivity.
  - intros s Hs Htok. rewrite Hs. simpl.
    destruct (decide (accessToken s = "")); [|done]. simpl.
    repeat split_and; try reflexivity.
    intros ->. simpl. rewrite Hs. simpl.
    destruct (decide (accessToken s = "")); [|done]. split; reflexivity.
Qed.

Lemma connect_oauth_keeps_stores_witness :
  (_secretStorage (WithApiKey.connect online_env connected_world).2
   = _secretStorage connected_world
   ∧ _storage (WithApiKey.connect online_env connected_world).2
     = _storage connected_world)
  ∧ ((OAuthOnly.connect empty_token_env connected_world).1 = Returns false
     ∧ _client (OAuthOnly.connect empty_token_env connected_world).2
       = _client connected_world).
Proof.
  split.
  - apply (proj1 (proj2 (connect_oauth_keeps_stores online_env connected_world))).
    reflexivity.
  - pose proof (proj2 (proj2 (proj2 (connect_oauth_keeps_stores
                                       empty_token_env connected_world)))
                  {| accessToken := "" |} eq_refl eq_refl) as (H1 & H2 & _).
    split; [exact H1 | exact H2].
Defined.

(** X11. The manual path of [connect] (first revision): after the user
    picks the other entry and types a non-empty key, exactly one request
    is sent, the viewer look-up through a client built from the typed
    key.  When it raises, or the secret store rejects the key, the result
    is [false] and the client handle and both stores are as before.
    Only when both go through is the key persisted under [apiKey], the
    client handle replaced by the tested client and the result [true]. *)
Theorem connect_api_key_validated_before_stored
    (env : Env) (w : World) (label key : string) :
  showQuickPick env = Returns (Some label) →
  label ≠ "Sign in with OAuth" →
  showInputBox env = Returns (Some key) →
  key ≠ "" →
  remote_calls (trace (WithApiKey.connect env w).2)
  = remote_calls (trace w) ++ [(ClientOfApiKey key, viewer)]
  ∧ match remote env (ClientOfApiKey key) viewer,
          (secretStorage_store "apiKey" key env w).1 with
    | Returns _, Returns _ =>
        (WithApiKey.connect env w).1 = Returns true
        ∧ _client (WithApiKey.connect env w).2 = Some (ClientOfApiKey key)
        ∧ stored_secret "apiKey" (WithApiKey.connect env w).2 = Some key
        ∧ _storage (WithApiKey.connect env w).2 = _storage w
    | _, _ =>
        (WithApiKey.connect env w).1 = Returns false
        ∧ variables (WithApiKey.connect env w).2 = variables w
    end.
Proof.
  intros Hpick Hlabel Hinput Hkey.
  assert (truthy (Some key) = Some key) as Ht by (apply truthy_Some; done).
  unfold WithApiKey.connect, variables, stored_secret. unfold_js. simpl.
  rewrite Hpick. simpl.
  destruct (decide (label = "Sign in with OAuth")); [done|].
  simpl. rewrite Hinput. simpl. rewrite Ht. simpl.
  destruct (decide (key = "")); [done|]. simpl.
  destruct (remote env (ClientOfApiKey key) viewer) as [u|e]; simpl.
  - destruct (_secretStorage w) as [m|] eqn:Hm; simpl.
    + destruct (fault env (secret_store "apiKey" key)); simpl;
        rewrite !remote_calls_app; simpl; rewrite ?app_nil_r;
        rewrite ?lookup_insert_eq, ?Hm; done.
    + rewrite !remote_calls_app; simpl; rewrite ?app_nil_r, ?Hm. done.
  - rewrite !remote_calls_app; simpl; rewrite ?app_nil_r. done.
Qed.

Lemma connect_api_key_validated_before_stored_witness :
  remote_calls (trace (WithApiKey.connect (typing_env "lin_api_2")
                         disconnected_world).2)
  = [(ClientOfApiKey "lin_api_2", viewer)]
  ∧ (WithApiKey.connect (typing_env "lin_api_2") disconnected_world).1
    = Returns true
  ∧ _client (WithApiKey.connect (typing_env "lin_api_2") disconnected_world).2
    = Some (ClientOfApiKey "lin_api_2")
  ∧ stored_secret "apiKey"
      (WithApiKey.connect (typing_env "lin_api_2") disconnected_world).2
    = Some "lin_api_2"
  ∧ _storage (WithApiKey.connect (typing_env "lin_api_2") disconnected_world).2
    = _storage disconnected_world.
Proof.
  apply (connect_api_key_validated_before_stored (typing_env "lin_api_2")
           disconnected_world "Use API Key" "lin_api_2").
  - reflexivity.
  - discriminate.
  - reflexivity.
  - discriminate.
Defined.

(** Without a client handle every session-requiring operation refuses. *)
Lemma refuses_without_client
    (env : Env) (w : World) (identifier comment status : string)
    (input : IssueCreateInput) :
  _client w = None →
  refuses getMyIssues None env w
  ∧ refuses getMyTeams None env w
  ∧ refuses (getIssueByIdentifier identifier) None env w
  ∧ refuses getWorkflowStates None env w
  ∧ refuses getAvailablePriorities None env w
  ∧ refuses (addContextIssueComment comment) false env w
  ∧ refuses (setContextIssueStatus status) false env w
  ∧ refuses (createIssue input) None env w
  ∧ refuses getContextIssue None env w
  ∧ refuses WithApiKey.getContextIssueWithDetails None env w
  ∧ refuses OAuthOnly.getContextIssueWithDetails None env w.
Proof.
  intros Hc. unfold refuses.
  repeat split_and;
    unfold getMyIssues, getMyTeams, getIssueByIdentifier,
      getWorkflowStates, getAvailablePriorities, addContextIssueComment,
      setContextIssueStatus, createIssue, getContextIssue,
      WithApiKey.getContextIssueWithDetails,
      OAuthOnly.getContextIssueWithDetails;
    unfold_js; rewrite Hc; simpl;
    (eexists; split; [reflexivity|]); simpl;
    rewrite ?remote_calls_app, ?app_nil_r; done.
Qed.

(** A [disconnect] that returns [true] has cleared the client handle and
    left the secret store bound, without the API key. *)
Lemma disconnect_true_cleared (env : Env) (w w' : World) :
  WithApiKey.disconnect env w = (Returns true, w')
  ∨ OAuthOnly.disconnect env w = (Returns true, w') →
  _client w' = None
  ∧ ∃ kept, _secretStorage w' = Some kept ∧ kept !! "apiKey" = None.
Proof.
  unfold WithApiKey.disconnect, OAuthOnly.disconnect. unfold_js. simpl.
  destruct (_secretStorage w) as [m|]; simpl.
  - destruct (fault env (secret_delete "apiKey")); simpl.
    + intros [H|H]; discriminate.
    + intros [H|H].
      * destruct (getSession env false) as [[s|]|e]; simpl in H;
          simplify_eq; simpl; (split; [done|]); eexists;
          (split; [reflexivity|]); apply lookup_delete_eq.
      * simplify_eq; simpl. split; [done|]. eexists.
        split; [reflexivity|]. apply lookup_delete_eq.
  - intros [H|H]; discriminate.
Qed.

(** X12. After a [disconnect] that returned [true], in either revision,
    every session-requiring operation returns its absent value without
    sending a request, whatever the collaborators would answer, also when
    the authentication provider still holds an OAuth session. *)
Theorem disconnect_then_not_connected
    (env env' : Env) (w w' : World) (identifier comment status : string)
    (input : IssueCreateInput) :
  WithApiKey.disconnect env w = (Returns true, w')
  ∨ OAuthOnly.disconnect env w = (Returns true, w') →
  session_state w' = Unauthenticated
  ∧ refuses getMyIssues None env' w'
  ∧ refuses getMyTeams None env' w'
  ∧ refuses (getIssueByIdentifier identifier) None env' w'
  ∧ refuses getWorkflowStates None env' w'
  ∧ refuses getAvailablePriorities None env' w'
  ∧ refuses (addContextIssueComment comment) false env' w'
  ∧ refuses (setContextIssueStatus status) false env' w'
  ∧ refuses (createIssue input) None env' w'
  ∧ refuses getContextIssue None env' w'
  ∧ refuses WithApiKey.getContextIssueWithDetails None env' w'
  ∧ refuses OAuthOnly.getContextIssueWithDetails None env' w'.
Proof.
  intros H. apply disconnect_true_cleared in H as [Hc _].
  split.
  - unfold session_state. rewrite Hc. reflexivity.
  - apply refuses_without_client. exact Hc.
Qed.

Lemma disconnect_then_not_connected_witness :
  session_state (OAuthOnly.disconnect online_env connected_world).2
  = Unauthenticated
  ∧ refuses getMyIssues None online_env
      (OAuthOnly.disconnect online_env connected_world).2.
Proof.
  pose proof (disconnect_then_not_connected online_env online_env
                connected_world _ "ABC-42" "looks good" "state-1" sample_input
                (or_intror eq_refl)) as H.
  split; [apply H | apply H].
Defined.

(** X13. A persisted API key does not survive a [disconnect] that
    returned [true]: an [init] that follows on the stores as they were
    left, with no OAuth session at the provider, returns [false] and
    establishes no client handle. *)
Theorem api_key_gone_after_disconnect
    (env env' : Env) (w w' : World) (workspace : gmap string string) :
  WithApiKey.disconnect env w = (Returns true, w')
  ∨ OAuthOnly.disconnect env w = (Returns true, w') →
  getSession env' false = Returns None →
  ∃ kept,
    _secretStorage w' = Some kept
    ∧ (init {| secrets := kept; workspaceState := workspace |} env' w').1
      = Returns false
    ∧ _client (init {| secrets := kept; workspaceState := workspace |} env' w').2
      = None.
Proof.
  intros H Hs. apply disconnect_true_cleared in H as (Hc & kept & Hk & Hkey).
  exists kept. split; [exact Hk|].
  unfold init. unfold_js. simpl. rewrite Hs. simpl.
  destruct (fault env' (secret_get "apiKey")); simpl.
  - split; [reflexivity | exact Hc].
  - rewrite Hkey. simpl. split; [reflexivity | exact Hc].
Qed.

Lemma api_key_gone_after_disconnect_witness :
  ∃ kept,
    _secretStorage (WithApiKey.disconnect offline_env connected_world).2
    = Some kept
    ∧ (init {| secrets := kept; workspaceState := ∅ |} offline_env
         (WithApiKey.disconnect offline_env connected_world).2).1
      = Returns false
    ∧ _client (init {| secrets := kept; workspaceState := ∅ |} offline_env
                 (WithApiKey.disconnect offline_env connected_world).2).2
      = None.
Proof.
  apply (api_key_gone_after_disconnect offline_env offline_env connected_world
           _ ∅ (or_introl eq_refl) eq_refl).
Defined.

Lemma init_binds_storage (context : ExtensionContext) (env : Env) (w : World) :
  _storage (init context env w).2 = Some (workspaceState context).
Proof. unfold init. unfold_js. js_cases; reflexivity. Qed.

(** X14. [init] binds the two stores to the ones of the context it is
    given, whatever its result, and is silent: it never asks the
    provider to create a session, shows no prompt or message, sends no
    request and writes to no store. *)
Theorem init_binds_stores_silently
    (context : ExtensionContext) (env : Env) (w : World) :
  _secretStorage (init context env w).2 = Some (secrets context)
  ∧ _storage (init context env w).2 = Some (workspaceState context)
  ∧ ∃ events,
      trace (init context env w).2 = trace w ++ events
      ∧ Forall (λ ev, intrusive ev = false) events.
Proof.
  unfold init. unfold_js.
  js_cases; (repeat split_and; try done);
    (eexists; split; [rewrite <- ?app_assoc; reflexivity|]);
    repeat constructor.
Qed.

(** X15. Once [init] has run, whatever it returned, the context issue
    can be set: [setContextIssueId] with a non-empty id returns [true]
    and the id is persisted, provided the store does not reject the
    update. *)
Theorem init_makes_context_settable
    (context : ExtensionContext) (env env' : Env) (w : World) (id : string) :
  id ≠ "" →
  fault env' (memento_update "linearContextIssueId" id) = None →
  (setContextIssueId (Some id) env' (init context env w).2).1 = Returns true
  ∧ persisted "linearContextIssueId"
      (setContextIssueId (Some id) env' (init context env w).2).2
    = Some id.
Proof.
  intros Hid Hfault.
  assert (truthy (Some id) = Some id) as Ht by (apply truthy_Some; done).
  pose proof (init_binds_storage context env w) as Hst.
  unfold setContextIssueId, persisted. rewrite Ht. unfold_js. simpl.
  rewrite Hst. simpl. rewrite Hfault. simpl.
  split; [reflexivity | apply lookup_insert_eq].
Qed.

Lemma init_makes_context_settable_witness :
  (init sample_context offline_env initial_world).1 = Returns true
  ∧ (setContextIssueId (Some "ISS-1") offline_env
       (init sample_context locked_secrets_env initial_world).2).1
    = Returns true
  ∧ persisted "linearContextIssueId"
      (setContextIssueId (Some "ISS-1") offline_env
         (init sample_context locked_secrets_env initial_world).2).2
    = Some "ISS-1".
Proof.
  split; [reflexivity|].
  apply (init_makes_context_settable sample_context locked_secrets_env
           offline_env initial_world "ISS-1").
  - discriminate.
  - reflexivity.
Defined.

(** ** The two revisions side by side *)

(** X16. The two revisions of [disconnect] agree on every run: same
    result, same client handle and same stores afterwards.  The check for
    an OAuth session that only the first revision makes changes neither. *)
Theorem disconnect_revisions_agree (env : Env) (w : World) :
  (WithApiKey.disconnect env w).1 = (OAuthOnly.disconnect env w).1
  ∧ variables (WithApiKey.disconnect env w).2
    = variables (OAuthOnly.disconnect env w).2.
Proof.
  unfold WithApiKey.disconnect, OAuthOnly.disconnect, variables.
  unfold_js. simpl.
  destruct (_secretStorage w) as [m|] eqn:Hm; simpl.
  - destruct (fault env (secret_delete "apiKey")); simpl.
    + rewrite Hm. done.
    + destruct (getSession env false) as [[s|]|e]; simpl; done.
  - rewrite Hm. done.
Qed.

(** X17. When the user picks the OAuth entry, the first revision of
    [connect] does what the second does: same result, same client handle
    and same stores afterwards. *)
Theorem connect_revisions_agree_on_oauth (env : Env) (w : World) :
  showQuickPick env = Returns (Some "Sign in with OAuth") →
  (WithApiKey.connect env w).1 = (OAuthOnly.connect env w).1
  ∧ variables (WithApiKey.connect env w).2
    = variables (OAuthOnly.connect env w).2.
Proof.
  intros Hpick.
  unfold WithApiKey.connect, OAuthOnly.connect, variables.
  unfold_js. simpl. rewrite Hpick. simpl.
  destruct (getSession env true) as [[s|]|e]; simpl;
    [destruct (decide (accessToken s = ""))|..]; simpl; done.
Qed.

Lemma connect_revisions_agree_on_oauth_witness :
  (WithApiKey.connect online_env disconnected_world).1
  = (OAuthOnly.connect online_env disconnected_world).1
  ∧ variables (WithApiKey.connect online_env disconnected_world).2
    = variables (OAuthOnly.connect online_env disconnected_world).2.
Proof.
  apply (connect_revisions_agree_on_oauth online_env disconnected_world).
  reflexivity.
Defined.

(** X18. The two revisions of [getContextIssueWithDetails] agree on
    every run up to the empty lists: they leave the same world behind,
    log included, and the bundle of the first is the bundle of the second
    with an absent list of subscribers or of comments replaced by the
    empty list. *)
Theorem details_revisions_agree (env : Env) (w : World) :
  (WithApiKey.getContextIssueWithDetails env w).2
  = (OAuthOnly.getContextIssueWithDetails env w).2
  ∧ ∃ bundle,
      (OAuthOnly.getContextIssueWithDetails env w).1 = Returns bundle
      ∧ (WithApiKey.getContextIssueWithDetails env w).1
        = Returns (with_empty_lists <$> bundle).
Proof.
  unfold WithApiKey.getContextIssueWithDetails,
    OAuthOnly.getContextIssueWithDetails, with_empty_lists.
  unfold_js_to_join. js_cases; (split; [reflexivity|]); eexists;
    (split; [reflexivity|]); try reflexivity.
Qed.

(** ** Fetching the context issue *)

(** X19. With a client handle but no stored context id, or an empty
    one, [getContextIssue] and both revisions of
    [getContextIssueWithDetails] return absent after reading the store,
    without sending a request. *)
Theorem context_fetch_without_id
    (env : Env) (w : World) (c : LinearClient) (stored : option string) :
  _client w = Some c →
  (storage_get "linearContextIssueId" env w).1 = Returns stored →
  truthy stored = None →
  let after := with_trace (trace w ++ [EvStore (memento_get "linearContextIssueId")]) w in
  getContextIssue env w = (Returns None, after)
  ∧ WithApiKey.getContextIssueWithDetails env w = (Returns None, after)
  ∧ OAuthOnly.getContextIssueWithDetails env w = (Returns None, after)
  ∧ remote_calls (trace after) = remote_calls (trace w).
Proof.
  intros Hc Hget Hstored. revert Hget.
  unfold getContextIssue, WithApiKey.getContextIssueWithDetails,
    OAuthOnly.getContextIssueWithDetails.
  unfold_js. rewrite Hc. simpl.
  destruct (_storage w) as [m|] eqn:Hm; simpl; [|discriminate].
  destruct (fault env _); simpl; [discriminate|].
  intros [= ->]. rewrite Hstored. simpl.
  assert (with_storage (Some m)
            (with_trace (trace w ++ [EvStore (memento_get "linearContextIssueId")]) w)
          = with_trace (trace w ++ [EvStore (memento_get "linearContextIssueId")]) w)
    as ->.
  { unfold with_storage, with_trace. simpl. rewrite Hm. reflexivity. }
  repeat split_and; try reflexivity.
  rewrite remote_calls_app. simpl. apply app_nil_r.
Qed.

Lemma context_fetch_without_id_witness :
  getContextIssue online_env (with_client (Some sample_client) disconnected_world)
  = (Returns None,
     with_trace [EvStore (memento_get "linearContextIssueId")]
       (with_client (Some sample_client) disconnected_world)).
Proof.
  apply (context_fetch_without_id online_env
           (with_client (Some sample_client) disconnected_world)
           sample_client None eq_refl eq_refl eq_refl).
Defined.

(** X20. With a client handle and a stored context id, both revisions of
    [getContextIssueWithDetails] first fetch the issue.  When that fetch
    raises or finds nothing, the result is absent and nothing more is
    requested.  When it finds the issue, the five dependent fetches are
    made in the order assignee, creator, team, subscribers and the first
    100 comments, up to and including the first one that throws on the
    spot; a fetch whose promise rejects does not keep the later ones from
    being made, so when none throws on the spot all five are made. *)
Theorem details_request_sequence
    (env : Env) (w : World) (c : LinearClient) (id : string) :
  _client w = Some c →
  (storage_get "linearContextIssueId" env w).1 = Returns (Some id) →
  id ≠ "" →
  match remote env c (issue id) with
  | Returns (Some i) =>
      let made :=
        (c, issue id)
        :: ((λ q, (c, q)) <$> evaluated env c [assignee i; creator i; team i;
                                              subscribers i; comments i 100]) in
      remote_calls (trace (WithApiKey.getContextIssueWithDetails env w).2)
      = remote_calls (trace w) ++ made
      ∧ remote_calls (trace (OAuthOnly.getContextIssueWithDetails env w).2)
        = remote_calls (trace w) ++ made
      ∧ ((∀ q, synchronous env c q = false) →
         made = [(c, issue id); (c, assignee i); (c, creator i); (c, team i);
                 (c, subscribers i); (c, comments i 100)])
  | _ =>
      (WithApiKey.getContextIssueWithDetails env w).1 = Returns None
      ∧ (OAuthOnly.getContextIssueWithDetails env w).1 = Returns None
      ∧ remote_calls (trace (WithApiKey.getContextIssueWithDetails env w).2)
        = remote_calls (trace w) ++ [(c, issue id)]
      ∧ remote_calls (trace (OAuthOnly.getContextIssueWithDetails env w).2)
        = remote_calls (trace w) ++ [(c, issue id)]
  end.
Proof.
  intros Hc Hget Hid.
  assert (truthy (Some id) = Some id) as Ht by (apply truthy_Some; done).
  revert Hget.
  unfold WithApiKey.getContextIssueWithDetails,
    OAuthOnly.getContextIssueWithDetails.
  unfold_js_to_join. rewrite Hc. simpl.
  destruct (_storage w) as [m|] eqn:Hm; simpl; [|discriminate].
  destruct (fault env _); simpl; [discriminate|].
  intros [= ->]. rewrite Ht.
  destruct (remote env c (issue id)) as [[i|]|e]; simpl.
  - repeat split_and.
    + name_join env c i Hvars Hcalls Hres. clear Hvars Hres.
      simpl in Hcalls. rewrite !remote_calls_app in Hcalls.
      simpl in Hcalls. rewrite app_nil_r in Hcalls.
      destruct o as [[[[[? ?] ?] ?] ?]|?]; simpl;
        rewrite ?remote_calls_app; simpl; rewrite ?app_nil_r, Hcalls;
        rewrite <- app_assoc; reflexivity.
    + name_join env c i Hvars Hcalls Hres. clear Hvars Hres.
      simpl in Hcalls. rewrite !remote_calls_app in Hcalls.
      simpl in Hcalls. rewrite app_nil_r in Hcalls.
      destruct o as [[[[[? ?] ?] ?] ?]|?]; simpl;
        rewrite ?remote_calls_app; simpl; rewrite ?app_nil_r, Hcalls;
        rewrite <- app_assoc; reflexivity.
    + intros Hsync. unfold throws_synchronously. rewrite !Hsync.
      destruct (remote env c (assignee i));
        destruct (remote env c (creator i));
        destruct (remote env c (team i));
        destruct (remote env c (subscribers i));
        destruct (remote env c (comments i 100)); reflexivity.
  - rewrite !remote_calls_app; simpl; rewrite ?app_nil_r. done.
  - rewrite !remote_calls_app; simpl; rewrite ?app_nil_r. done.
Qed.

Lemma details_request_sequence_witness :
  (remote_calls (trace (WithApiKey.getContextIssueWithDetails no_assignee_env
                          connected_world).2)
   = [(sample_client, issue "ABC-42");
      (sample_client, assignee {| issue_id := "ABC-42" |});
      (sample_client, creator {| issue_id := "ABC-42" |});
      (sample_client, team {| issue_id := "ABC-42" |});
      (sample_client, subscribers {| issue_id := "ABC-42" |});
      (sample_client, comments {| issue_id := "ABC-42" |} 100)])
  ∧ (remote_calls (trace (OAuthOnly.getContextIssueWithDetails teamless_env
                            connected_world).2)
     = [(sample_client, issue "ABC-42");
        (sample_client, assignee {| issue_id := "ABC-42" |});
        (sample_client, creator {| issue_id := "ABC-42" |});
        (sample_client, team {| issue_id := "ABC-42" |})]).
Proof.
  pose proof (details_request_sequence no_assignee_env connected_world
                sample_client "ABC-42" eq_refl eq_refl ltac:(discriminate))
    as (Hall & _).
  pose proof (details_request_sequence teamless_env connected_world
                sample_client "ABC-42" eq_refl eq_refl ltac:(discriminate))
    as (_ & Hstop & _).
  split; [exact Hall | exact Hstop].
Defined.

(** ** Command handlers *)

(** X21. The handler of [linear.connect] always returns, with either
    revision of [connect]; its [catch] branch is never taken.  The last
    thing it shows is the success message, and then a client handle is
    held, or the failure message, and then the client handle is the one
    from before the command. *)
Theorem connectCommand_reports_outcome (env : Env) (w : World) :
  (∃ w', connectCommand WithApiKey.connect env w = (Returns tt, w')
         ∧ ((last (trace w')
             = Some (EvShowInformationMessage "Successfully connected to Linear!")
             ∧ session_state w' = Authenticated)
            ∨ (last (trace w')
               = Some (EvShowErrorMessage "Failed to connect to Linear. Please try again.")
               ∧ _client w' = _client w)))
  ∧ (∃ w', connectCommand OAuthOnly.connect env w = (Returns tt, w')
           ∧ ((last (trace w')
               = Some (EvShowInformationMessage "Successfully connected to Linear!")
               ∧ session_state w' = Authenticated)
              ∨ (last (trace w')
                 = Some (EvShowErrorMessage "Failed to connect to Linear. Please try again.")
                 ∧ _client w' = _client w))).
Proof.
  split; unfold connectCommand, WithApiKey.connect, OAuthOnly.connect,
    session_state; unfold_js; js_cases;
    (eexists; split; [reflexivity|]); simpl; rewrite last_snoc;
    first [ left; split; reflexivity | right; split; reflexivity ].
Qed.

(** X22. The handler of [linear.disconnect] always returns, with either
    revision of [disconnect].  When the deletion of the API key goes
    through it ends on the "Disconnected" message and no client handle is
    held; when the deletion raises it ends on the "Failed to disconnect"
    message and the client handle is the one from before the command. *)
Theorem disconnectCommand_reports_outcome (env : Env) (w : World) :
  (∃ w', disconnectCommand WithApiKey.disconnect env w = (Returns tt, w')
         ∧ match (secretStorage_delete "apiKey" env w).1 with
           | Returns _ =>
               last (trace w')
               = Some (EvShowInformationMessage
                         "Disconnected from Linear. Run 'Linear: Connect' to reconnect.")
               ∧ _client w' = None
           | Raises _ =>
               last (trace w')
               = Some (EvShowErrorMessage
                         "Failed to disconnect from Linear. Please try again.")
               ∧ _client w' = _client w
           end)
  ∧ (∃ w', disconnectCommand OAuthOnly.disconnect env w = (Returns tt, w')
           ∧ match (secretStorage_delete "apiKey" env w).1 with
             | Returns _ =>
                 last (trace w')
                 = Some (EvShowInformationMessage
                           "Disconnected from Linear. Run 'Linear: Connect' to reconnect.")
                 ∧ _client w' = None
             | Raises _ =>
                 last (trace w')
                 = Some (EvShowErrorMessage
                           "Failed to disconnect from Linear. Please try again.")
                 ∧ _client w' = _client w
             end).
Proof.
  split; unfold disconnectCommand, WithApiKey.disconnect, OAuthOnly.disconnect;
    unfold_js; js_cases;
    (eexists; split; [reflexivity|]); simpl; rewrite last_snoc;
    split; reflexivity.
Qed.

(** X23. The handler of [linear.addContextIssueComment].  A dismissed or
    empty input shows "Comment cannot be empty" and does nothing else: no
    store is read and no request is sent.  A prompt that raises makes
    the handler raise.  With a text and no client handle it ends on the
    error message without sending a request.  With a text, a client
    handle and a stored context id it sends the one creation request and
    ends on the success message exactly when the remote reports success. *)
Theorem addContextIssueCommentCommand_outcomes (env : Env) (w : World) :
  (∀ e, showInputBox env = Raises e →
     addContextIssueCommentCommand env w
     = (Raises e, with_trace (trace w ++ [EvShowInputBox]) w))
  ∧ (∀ input, showInputBox env = Returns input → truthy input = None →
     addContextIssueCommentCommand env w
     = (Returns tt,
        with_trace (trace w ++ [EvShowInputBox;
                                EvShowErrorMessage "Comment cannot be empty"]) w))
  ∧ (∀ comment, showInputBox env = Returns (Some comment) → comment ≠ "" →
     _client w = None →
     addContextIssueCommentCommand env w
     = (Returns tt,
        with_trace (trace w ++ [EvShowInputBox;
                                EvShowErrorMessage "Error commenting the context issue"]) w))
  ∧ (∀ comment c id payload,
     showInputBox env = Returns (Some comment) → comment ≠ "" →
     _client w = Some c →
     (storage_get "linearContextIssueId" env w).1 = Returns (Some id) →
     id ≠ "" →
     remote env c (commentCreate id comment) = Returns payload →
     ∃ w', addContextIssueCommentCommand env w = (Returns tt, w')
           ∧ remote_calls (trace w')
             = remote_calls (trace w) ++ [(c, commentCreate id comment)]
           ∧ last (trace w')
             = Some (if comment_success payload
                     then EvShowInformationMessage "Context issue comment added"
                     else EvShowErrorMessage "Error commenting the context issue")).
Proof.
  unfold addContextIssueCommentCommand, addContextIssueComment.
  repeat split_and.
  - intros e He. unfold_js. rewrite He. reflexivity.
  - intros input Hin Ht. unfold_js. rewrite Hin. simpl. rewrite Ht.
    unfold with_trace. simpl. rewrite <- app_assoc. reflexivity.
  - intros comment Hin Hcomment Hc.
    assert (truthy (Some comment) = Some comment) as Ht
      by (apply truthy_Some; done).
    unfold_js. rewrite Hin. simpl. rewrite Ht. simpl. rewrite Hc. simpl.
    unfold with_trace. simpl. rewrite <- app_assoc. reflexivity.
  - intros comment c id payload Hin Hcomment Hc Hget Hid Hremote.
    assert (truthy (Some comment) = Some comment) as Ht
      by (apply truthy_Some; done).
    assert (truthy (Some id) = Some id) as Hti by (apply truthy_Some; done).
    revert Hget. unfold_js. rewrite Hin. simpl. rewrite Ht. simpl.
    rewrite Hc, Ht. simpl.
    destruct (_storage w) as [m|]; simpl; [|discriminate].
    destruct (fault env _); simpl; [discriminate|].
    intros [= ->]. rewrite Hti, Hremote.
    destruct (comment_success payload); simpl;
      (eexists; split; [reflexivity|]); simpl;
      rewrite last_snoc, !remote_calls_app; simpl;
      rewrite ?app_nil_r; done.
Qed.

Lemma addContextIssueCommentCommand_outcomes_witness :
  ∃ w', addContextIssueCommentCommand (typing_env "looks good") connected_world
        = (Returns tt, w')
        ∧ remote_calls (trace w')
          = [(sample_client, commentCreate "ABC-42" "looks good")]
        ∧ last (trace w')
          = Some (EvShowInformationMessage "Context issue comment added").
Proof.
  apply (proj2 (proj2 (proj2 (addContextIssueCommentCommand_outcomes
                                (typing_env "looks good") connected_world)))
           "looks good" sample_client "ABC-42" {| comment_success := true |}).
  - reflexivity.
  - discriminate.
  - reflexivity.
  - reflexivity.
  - discriminate.
  - reflexivity.
Defined.
